(** * Agentic food analysis: a shallow embedding of [agentic_food_analysis.py]

    The development follows the source file top-down: the Python values the
    program manipulates, the text operations the stages use to cut a JSON
    payload out of a reply, the four stage agents, the verification agent
    and the workflow orchestrator.

    Modelling conventions.
    - A Python [str] is a [string]; [str.lower] acts on the ASCII letters.
    - A Python exception is a value of [exn]; code that can raise returns a
      [result].
    - What the program takes from its environment is a variable of the
      section that uses it: the reply of the chat-completions endpoint, the
      wall clock, the decoder [json.loads], and the renderings of values as
      text ([str], [format]).
    - Numbers are modelled twice.  In the stages, the verification agent
      and the orchestrator a number ([int], [float], and [bool] where it is
      used as a number) is an exact rational [Q]; [nan] and the infinities
      are not represented.  That is what Python computes where a number is
      stored, passed on, or compared with a constant; where the code adds,
      multiplies or divides it is the arithmetic without rounding.
      [Binary64] models the arithmetic of the verification agent and of the
      aggregate confidence again, on Python's own numbers: unbounded [int]
      and binary64 [float], with the rounding of every operation and the
      exceptions the operations raise.  Statements about what the
      arithmetic yields are made on [Binary64]. *)

From Stdlib Require Import String Ascii List ZArith QArith Qabs Bool Lia Lqa.
From Stdlib Require Import PrimFloat.
From Stdlib Require FloatOps SpecFloat Uint63.
Import ListNotations.

Set Implicit Arguments.
Set Warnings "-inexact-float".

(** ** Python values and exceptions *)

(** The values [json.loads] produces: [None], [bool], numbers, [str],
    [list] and [dict] (insertion-ordered, looked up by key). *)
#[warnings="-register-all"]
Inductive value : Type :=
| VNone
| VBool (b : bool)
| VNum (q : Q)
| VStr (s : string)
| VList (items : list value)
| VDict (members : list (string * value)).

Inductive exn : Type :=
| KeyError (key : string)
| TypeError
| AttributeError
| OverflowError
| ZeroDivisionError
| ApiError (reason : string).

Inductive result (A : Type) : Type :=
| Ok (a : A)
| Raise (e : exn).

Arguments Ok {A} a.
Arguments Raise {A} e.

Definition bind {A B : Type} (m : result A) (k : A -> result B) : result B :=
  match m with
  | Ok a => k a
  | Raise e => Raise e
  end.

Declare Scope py_scope.
Delimit Scope py_scope with py.
Notation "x <- m ;; k" := (bind m (fun x => k))
  (at level 61, m at next level, right associativity) : py_scope.
Notation "m ;;; k" := (bind m (fun _ => k))
  (at level 61, right associativity) : py_scope.

Fixpoint mapM {A B : Type} (f : A -> result B) (xs : list A) : result (list B) :=
  match xs with
  | [] => Ok []
  | x :: rest =>
      (y <- f x ;;
       ys <- mapM f rest ;;
       Ok (y :: ys))%py
  end.

(** ** Text operations *)

Module PyStr.

(** [s.find(c)] for a one-character needle: the first index, or -1. *)
Fixpoint find (c : ascii) (s : string) : Z :=
  match s with
  | EmptyString => -1
  | String a rest =>
      if Ascii.eqb a c then 0
      else let i := find c rest in
           if (i <? 0)%Z then -1 else (i + 1)%Z
  end.

(** [s.rfind(c)]: the last index, or -1. *)
Fixpoint rfind (c : ascii) (s : string) : Z :=
  match s with
  | EmptyString => -1
  | String a rest =>
      let i := rfind c rest in
      if (0 <=? i)%Z then (i + 1)%Z
      else if Ascii.eqb a c then 0 else -1
  end.

(** [s[start:stop]]: a negative bound counts from the end, and both bounds
    are clipped to the string. *)
Definition clip (len i : Z) : Z :=
  if (i <? 0)%Z then Z.max (i + len) 0 else Z.min i len.

Definition slice (s : string) (start stop : Z) : string :=
  let len := Z.of_nat (String.length s) in
  let a := clip len start in
  let b := clip len stop in
  if (a <? b)%Z then substring (Z.to_nat a) (Z.to_nat (b - a)) s
  else EmptyString.

Definition lower_ascii (c : ascii) : ascii :=
  let n := N_of_ascii c in
  if ((65 <=? n) && (n <=? 90))%N then ascii_of_N (n + 32) else c.

Fixpoint lower (s : string) : string :=
  match s with
  | EmptyString => EmptyString
  | String a rest => String (lower_ascii a) (lower rest)
  end.

(** [needle in s]. *)
Fixpoint contains (needle s : string) : bool :=
  String.prefix needle s ||
  match s with
  | EmptyString => false
  | String _ rest => contains needle rest
  end.

(** The characters of a string, as Python iterates over it. *)
Fixpoint chars (s : string) : list string :=
  match s with
  | EmptyString => []
  | String a rest => String a EmptyString :: chars rest
  end.

(** [sep.join(parts)]. *)
Fixpoint join (sep : string) (parts : list string) : string :=
  match parts with
  | [] => EmptyString
  | [p] => p
  | p :: rest => (p ++ sep ++ join sep rest)%string
  end.

End PyStr.

(** ** Dynamic operations on values *)

Module Py.

Fixpoint lookup (key : string) (members : list (string * value)) : option value :=
  match members with
  | [] => None
  | (k, v) :: rest => if String.eqb k key then Some v else lookup key rest
  end.

(** [d[key] = v] on a dict: overwrite in place, or append. *)
Fixpoint store (key : string) (v : value) (members : list (string * value))
  : list (string * value) :=
  match members with
  | [] => [(key, v)]
  | (k, w) :: rest =>
      if String.eqb k key then (k, v) :: rest else (k, w) :: store key v rest
  end.

(** [v[key]] with a string key. *)
Definition subscript (v : value) (key : string) : result value :=
  match v with
  | VDict members =>
      match lookup key members with
      | Some x => Ok x
      | None => Raise (KeyError key)
      end
  | _ => Raise TypeError
  end.

(** [for x in v]. *)
Definition iterate (v : value) : result (list value) :=
  match v with
  | VList items => Ok items
  | VDict members => Ok (map (fun kv => VStr (fst kv)) members)
  | VStr s => Ok (map VStr (PyStr.chars s))
  | _ => Raise TypeError
  end.

(** A call that unpacks [v] into keyword arguments: [v] must be a mapping. *)
Definition kwargs (v : value) : result (list (string * value)) :=
  match v with
  | VDict members => Ok members
  | _ => Raise TypeError
  end.

(** A value used as a number in arithmetic or in an ordering comparison
    with a number. *)
Definition number (v : value) : result Q :=
  match v with
  | VNum q => Ok q
  | VBool b => Ok (if b then 1 else 0)
  | _ => Raise TypeError
  end.

(** [v.lower()]. *)
Definition lower (v : value) : result string :=
  match v with
  | VStr s => Ok (PyStr.lower s)
  | _ => Raise AttributeError
  end.

(** The truth value of a list: [not xs] is [is_empty xs]. *)
Definition is_empty {A : Type} (xs : list A) : bool :=
  match xs with
  | [] => true
  | _ :: _ => false
  end.

Definition Qltb (x y : Q) : bool := negb (Qle_bool y x).

(** [sum(xs)]: left to right, starting from 0. *)
Definition sum (xs : list Q) : Q := fold_left Qplus xs 0.

Definition len {A : Type} (xs : list A) : Q := inject_Z (Z.of_nat (List.length xs)).

(** A dataclass constructor called with keyword arguments accepts exactly
    its field names. *)
Definition accepts (fields : list string) (members : list (string * value)) : bool :=
  forallb (fun kv => existsb (String.eqb (fst kv)) fields) members &&
  forallb (fun f => match lookup f members with Some _ => true | None => false end) fields.

Definition field (key : string) (members : list (string * value)) : value :=
  match lookup key members with
  | Some v => v
  | None => VNone
  end.

End Py.

(** ** Data classes

    A dataclass does not check its field annotations: a field holds whatever
    value the decoded JSON carried, so the fields filled from a reply are
    [value]s. *)

Record NutritionData : Type := {
  protein : value;        (* grams *)
  carbohydrates : value;  (* grams *)
  fats : value;           (* grams *)
  fiber : value;          (* grams *)
  calories : value;       (* kcal *)
  sodium : value;         (* mg *)
  sugar : value;          (* grams *)
  cholesterol : value;    (* mg *)
  vitamin_c : value;      (* mg *)
  calcium : value;        (* mg *)
  iron : value            (* mg *)
}.

Module FoodItem.
Record t : Type := {
  name : value;
  category : value;
  portion_size : string;
  confidence : value;
  preparation_method : value;
  estimated_weight : value  (* grams *)
}.
End FoodItem.

Module HealthRecommendation.
Record t : Type := {
  category : value;
  message : value;
  priority : value;
  reasoning : value
}.
Definition fields : list string :=
  ["category"; "message"; "priority"; "reasoning"]%string.
(** The constructor, called with the members of [rec] as keywords. *)
Definition new (rec : value) : result t :=
  (kw <- Py.kwargs rec ;;
   if Py.accepts fields kw
   then Ok {| category := Py.field "category" kw;
              message := Py.field "message" kw;
              priority := Py.field "priority" kw;
              reasoning := Py.field "reasoning" kw |}
   else Raise TypeError)%py.
End HealthRecommendation.

Module MealSuggestion.
Record t : Type := {
  food_name : value;
  category : value;
  reason : value;
  nutritional_benefit : value
}.
Definition fields : list string :=
  ["food_name"; "category"; "reason"; "nutritional_benefit"]%string.
(** The constructor, called with the members of [suggestion] as keywords. *)
Definition new (suggestion : value) : result t :=
  (kw <- Py.kwargs suggestion ;;
   if Py.accepts fields kw
   then Ok {| food_name := Py.field "food_name" kw;
              category := Py.field "category" kw;
              reason := Py.field "reason" kw;
              nutritional_benefit := Py.field "nutritional_benefit" kw |}
   else Raise TypeError)%py.
End MealSuggestion.

Definition NutritionData_fields : list string :=
  ["protein"; "carbohydrates"; "fats"; "fiber"; "calories"; "sodium";
   "sugar"; "cholesterol"; "vitamin_c"; "calcium"; "iron"]%string.

(** The constructor, called with the members of [nutrition_data] as
    keywords. *)
Definition NutritionData_new (nutrition_data : value) : result NutritionData :=
  (kw <- Py.kwargs nutrition_data ;;
   if Py.accepts NutritionData_fields kw
   then Ok {| protein := Py.field "protein" kw;
              carbohydrates := Py.field "carbohydrates" kw;
              fats := Py.field "fats" kw;
              fiber := Py.field "fiber" kw;
              calories := Py.field "calories" kw;
              sodium := Py.field "sodium" kw;
              sugar := Py.field "sugar" kw;
              cholesterol := Py.field "cholesterol" kw;
              vitamin_c := Py.field "vitamin_c" kw;
              calcium := Py.field "calcium" kw;
              iron := Py.field "iron" kw |}
   else Raise TypeError)%py.

Record AnalysisResult : Type := {
  food_items : list FoodItem.t;
  nutrition : NutritionData;
  health_recommendations : list HealthRecommendation.t;
  meal_suggestions : list MealSuggestion.t;
  confidence_score : Q;
  analysis_timestamp : nat;  (* which reading of the clock *)
  agent_coordination_log : list string
}.

(** The five agents the orchestrator owns. *)
Inductive agent : Type :=
| PlanningAgent
| NutritionAgent
| HealthAgent
| MealPlanningAgent
| VerificationAgent.

(** The dictionaries of the two local checks of the verification agent, and
    the dictionary [verify_analysis] returns. *)
Module Check.
Record t : Type := {
  confidence : Q;
  status : string;
  issues : list string
}.
End Check.

Module Verification.
Record t : Type := {
  verified : bool;
  confidence : Q;
  summary : string;
  issues : list string;
  recommendations_for_improvement : list string
}.
End Verification.

Local Open Scope string_scope.

(** ** The stage agents *)

Section Agents.

(** [json.loads]: [None] stands for [json.JSONDecodeError].  The decoder
    can also raise [RecursionError], on a document nested deeper than the
    interpreter's recursion limit; no stage catches it, and the model
    leaves such documents out. *)
Variable json_loads : string -> option value.

(** [BaseAgent.call_llm]: what the one request of each agent yields, the
    text of the first choice or the exception of a failed call.  The prompt
    is not modelled, so the reply is arbitrary. *)
Variable call_llm : agent -> result string.

(** How an f-string renders a value. *)
Variable py_str : value -> string.

(** The four lines every stage starts its [try] block with: the reply is
    cut from the first opening delimiter to the last closing one and
    decoded. *)
Definition extract_json (opening closing : ascii) (response : string) : option value :=
  let json_start := PyStr.find opening response in
  let json_end := (PyStr.rfind closing response + 1)%Z in
  let json_str := PyStr.slice response json_start json_end in
  json_loads json_str.

(** *** PlanningAgent *)

Definition fallback_plan : value :=
  VDict [("food_items",
          VList [VDict [("name", VStr "unknown_food");
                        ("category", VStr "mixed");
                        ("estimated_weight", VNum 150);
                        ("preparation", VStr "unknown");
                        ("confidence", VNum 0.5)]]);
         ("complexity", VStr "moderate");
         ("analysis_focus", VList [VStr "nutrition"; VStr "health"]);
         ("special_considerations", VList []);
         ("recommended_agents",
          VList [VStr "nutrition"; VStr "health"; VStr "verification"])].

(** The [try]/[except] of [analyze_image_and_plan].  The boolean tells
    whether the [except] branch ran (it prints a warning and returns the
    fallback plan). *)
Definition parse_plan (response : string) : value * bool :=
  match extract_json "{" "}" response with
  | Some plan => (plan, false)
  | None => (fallback_plan, true)
  end.

Definition analyze_image_and_plan (image_base64 : string) : result value :=
  (response <- call_llm PlanningAgent ;;
   Ok (fst (parse_plan response)))%py.

(** *** NutritionAgent *)

Definition fallback_nutrition : NutritionData :=
  {| protein := VNum 20.0; carbohydrates := VNum 30.0; fats := VNum 15.0;
     fiber := VNum 5.0; calories := VNum 300; sodium := VNum 500;
     sugar := VNum 5.0; cholesterol := VNum 50; vitamin_c := VNum 10;
     calcium := VNum 100; iron := VNum 2.5 |}.

(** [except (json.JSONDecodeError, ValueError, TypeError)]: of the
    exceptions of the model, [TypeError] is the one the clause catches. *)
Definition parse_nutrition (response : string) : result (NutritionData * bool) :=
  match extract_json "{" "}" response with
  | None => Ok (fallback_nutrition, true)
  | Some nutrition_data =>
      match NutritionData_new nutrition_data with
      | Ok n => Ok (n, false)
      | Raise TypeError => Ok (fallback_nutrition, true)
      | Raise e => Raise e
      end
  end.

(** The lines of the prompt that describe the food items. *)
Definition food_descriptions (food_items : value) : result (list string) :=
  (items <- Py.iterate food_items ;;
   mapM (fun item =>
           n <- Py.subscript item "name" ;;
           w <- Py.subscript item "estimated_weight" ;;
           p <- Py.subscript item "preparation" ;;
           Ok ("- " ++ py_str n ++ ": " ++ py_str w ++ "g, " ++ py_str p))
        items)%py.

Definition analyze_nutrition (food_items plan : value) : result NutritionData :=
  (_ <- food_descriptions food_items ;;
   response <- call_llm NutritionAgent ;;
   r <- parse_nutrition response ;;
   Ok (fst r))%py.

(** *** HealthAgent *)

Definition fallback_recommendations : list HealthRecommendation.t :=
  [ {| HealthRecommendation.category := VStr "nutrient_balance";
       HealthRecommendation.message :=
         VStr "Consider adding more vegetables to increase fiber and micronutrients.";
       HealthRecommendation.priority := VStr "medium";
       HealthRecommendation.reasoning :=
         VStr "Current fiber content could be higher for optimal digestive health." |} ].

Definition parse_recommendations (response : string)
  : result (list HealthRecommendation.t * bool) :=
  match extract_json "[" "]" response with
  | None => Ok (fallback_recommendations, true)
  | Some recommendations_data =>
      match (recs <- Py.iterate recommendations_data ;;
             mapM HealthRecommendation.new recs)%py with
      | Ok rs => Ok (rs, false)
      | Raise TypeError => Ok (fallback_recommendations, true)
      | Raise e => Raise e
      end
  end.

(** The prompt is built from the nutrition record and the optional user
    profile, a [dict] as annotated, by formatting alone, which cannot
    fail. *)
Definition generate_recommendations (nutrition : NutritionData) (food_items : value)
    (user_profile : option (list (string * value)))
  : result (list HealthRecommendation.t) :=
  (response <- call_llm HealthAgent ;;
   r <- parse_recommendations response ;;
   Ok (fst r))%py.

(** *** MealPlanningAgent *)

Definition fallback_suggestions : list MealSuggestion.t :=
  [ {| MealSuggestion.food_name := VStr "Mixed green salad";
       MealSuggestion.category := VStr "vegetable";
       MealSuggestion.reason := VStr "Adds fiber and micronutrients";
       MealSuggestion.nutritional_benefit := VStr "Vitamins A, C, K and folate" |} ].

Definition parse_suggestions (response : string)
  : result (list MealSuggestion.t * bool) :=
  match extract_json "[" "]" response with
  | None => Ok (fallback_suggestions, true)
  | Some suggestions_data =>
      match (ss <- Py.iterate suggestions_data ;;
             mapM MealSuggestion.new ss)%py with
      | Ok rs => Ok (rs, false)
      | Raise TypeError => Ok (fallback_suggestions, true)
      | Raise e => Raise e
      end
  end.

(** [', '.join(current_foods)] needs every name to be a [str]. *)
Definition join_names (names : list value) : result string :=
  (parts <- mapM (fun v => match v with
                           | VStr s => Ok s
                           | _ => Raise TypeError
                           end) names ;;
   Ok (PyStr.join ", " parts))%py.

Definition suggest_complementary_foods (nutrition : NutritionData) (food_items : value)
  : result (list MealSuggestion.t) :=
  (items <- Py.iterate food_items ;;
   current_foods <- mapM (fun item => Py.subscript item "name") items ;;
   _ <- join_names current_foods ;;
   response <- call_llm MealPlanningAgent ;;
   r <- parse_suggestions response ;;
   Ok (fst r))%py.

End Agents.

(** ** VerificationAgent *)

(** [if c: xs.append(x)]. *)
Definition append_if (c : bool) (x : string) (xs : list string) : list string :=
  if c then (xs ++ [x])%list else xs.

(** [a or b] on two comparisons that may raise: [b] is evaluated only when
    [a] is false. *)
Definition or_else (a b : result bool) : result bool :=
  (x <- a ;; if x then Ok true else b)%py.

(** [v < q] and [v > q]. *)
Definition lt (v : value) (q : Q) : result bool :=
  (x <- Py.number v ;; Ok (Py.Qltb x q))%py.

Definition gt (v : value) (q : Q) : result bool :=
  (x <- Py.number v ;; Ok (Py.Qltb q x))%py.

Definition negative_macros : string := "Negative macronutrient values detected".
Definition mismatch_prefix : string := "Calorie calculation mismatch: ".
Definition very_high_sodium : string := "Very high sodium content detected".
Definition no_recommendations : string := "No health recommendations provided".
Definition sodium_unaddressed : string := "High sodium not addressed in recommendations".
Definition fiber_unaddressed : string := "Low fiber not addressed in recommendations".

Section Verify.

Variable py_str : value -> string.

(** The f-string of [verification_summary], from the two statuses, the
    overall confidence and the list of issues. *)
Variable format_summary : string -> string -> Q -> list string -> string.

(** The calorie arithmetic is exact here;
    [Binary64._verify_nutrition_values] follows its rounding and its
    [OverflowError]. *)
Definition _verify_nutrition_values (nutrition : NutritionData) : result Check.t :=
  (let issues := [] in
   (* Check for impossible values *)
   negative <- or_else (lt (protein nutrition) 0)
                 (or_else (lt (carbohydrates nutrition) 0)
                          (lt (fats nutrition) 0)) ;;
   let issues := append_if negative negative_macros issues in
   (* Check calorie calculation *)
   p <- Py.number (protein nutrition) ;;
   c <- Py.number (carbohydrates nutrition) ;;
   f <- Py.number (fats nutrition) ;;
   let calculated_calories := (p * 4 + c * 4 + f * 9)%Q in
   cal <- Py.number (calories nutrition) ;;
   let issues :=
     append_if (Py.Qltb 50 (Qabs (cal - calculated_calories)))
       (mismatch_prefix ++ py_str (calories nutrition) ++ " vs "
          ++ py_str (VNum calculated_calories))
       issues in
   (* Check extreme values *)
   high <- gt (sodium nutrition) 2000 ;;
   let issues := append_if high very_high_sodium issues in
   let confidence := if Py.is_empty issues then 0.9%Q else 0.6%Q in
   let status := if Py.is_empty issues then "PASS" else "WARNINGS" in
   Ok {| Check.confidence := confidence;
         Check.status := status;
         Check.issues := issues |})%py.

(** [any(word in rec.message.lower() for rec in recommendations)]: the
    scan stops at the first message that mentions the word. *)
Fixpoint any_mentions (word : string) (recommendations : list HealthRecommendation.t)
  : result bool :=
  match recommendations with
  | [] => Ok false
  | rec :: rest =>
      (m <- Py.lower (HealthRecommendation.message rec) ;;
       if PyStr.contains word m then Ok true else any_mentions word rest)%py
  end.

Definition _verify_recommendations (recommendations : list HealthRecommendation.t)
    (nutrition : NutritionData) : result Check.t :=
  (let issues := [] in
   let issues := append_if (Py.is_empty recommendations) no_recommendations issues in
   (* Check recommendation relevance *)
   high_sodium <- gt (sodium nutrition) 800 ;;
   low_fiber <- lt (fiber nutrition) 5 ;;
   sodium_addressed <- any_mentions "sodium" recommendations ;;
   fiber_addressed <- any_mentions "fiber" recommendations ;;
   let issues := append_if (high_sodium && negb sodium_addressed) sodium_unaddressed issues in
   let issues := append_if (low_fiber && negb fiber_addressed) fiber_unaddressed issues in
   let confidence := if Py.is_empty issues then 0.8%Q else 0.5%Q in
   let status := if Py.is_empty issues then "PASS" else "WARNINGS" in
   Ok {| Check.confidence := confidence;
         Check.status := status;
         Check.issues := issues |})%py.

Definition _suggest_improvements (r : AnalysisResult) : list string :=
  let suggestions := [] in
  let suggestions :=
    append_if (Py.Qltb (confidence_score r) 0.8)
      "Consider requesting clearer food images for better identification"
      suggestions in
  let suggestions :=
    append_if (List.length (health_recommendations r) <? 3)%nat
      "Generate more comprehensive health recommendations"
      suggestions in
  let suggestions :=
    append_if (Py.is_empty (meal_suggestions r))
      "Include meal planning suggestions for complete nutrition"
      suggestions in
  suggestions.

(** The mean of the three confidences is exact here;
    [Binary64.verify_analysis] follows its rounding. *)
Definition verify_analysis (r : AnalysisResult) : result Verification.t :=
  ((* Check nutritional consistency *)
   nutrition_check <- _verify_nutrition_values (nutrition r) ;;
   (* Check recommendation relevance *)
   recommendation_check <-
     _verify_recommendations (health_recommendations r) (nutrition r) ;;
   (* Calculate overall confidence *)
   let confidence_factors :=
     [Check.confidence nutrition_check;
      Check.confidence recommendation_check;
      confidence_score r] in
   let overall_confidence :=
     (Py.sum confidence_factors / Py.len confidence_factors)%Q in
   let issues :=
     (Check.issues nutrition_check ++ Check.issues recommendation_check)%list in
   Ok {| Verification.verified := Py.Qltb 0.7 overall_confidence;
         Verification.confidence := overall_confidence;
         Verification.summary :=
           format_summary (Check.status nutrition_check)
             (Check.status recommendation_check) overall_confidence issues;
         Verification.issues := issues;
         Verification.recommendations_for_improvement :=
           _suggest_improvements r |})%py.

End Verify.

(** ** AgenticWorkflowOrchestrator *)

(** The mutable part of the orchestrator: its coordination log, and how
    often the wall clock has been read so far. *)
Record orchestrator : Type := {
  coordination_log : list string;
  clock_reads : nat
}.

(** A method of the orchestrator: it may raise, and it updates the state
    either way. *)
Definition M (A : Type) : Type := orchestrator -> result A * orchestrator.

Definition ret {A : Type} (a : A) : M A := fun st => (Ok a, st).

Definition raise {A : Type} (e : exn) : M A := fun st => (Raise e, st).

Definition lift {A : Type} (r : result A) : M A := fun st => (r, st).

Definition bindM {A B : Type} (m : M A) (k : A -> M B) : M B :=
  fun st =>
    match m st with
    | (Ok a, st') => k a st'
    | (Raise e, st') => (Raise e, st')
    end.

(** [try: body except Exception as e: handler(e)]. *)
Definition try_except {A : Type} (body : M A) (handler : exn -> M A) : M A :=
  fun st =>
    match body st with
    | (Ok a, st') => (Ok a, st')
    | (Raise e, st') => handler e st'
    end.

Declare Scope wf_scope.
Delimit Scope wf_scope with wf.
Notation "x <- m ;; k" := (bindM m (fun x => k))
  (at level 61, m at next level, right associativity) : wf_scope.
Notation "m ;;; k" := (bindM m (fun _ => k))
  (at level 61, right associativity) : wf_scope.

Section Orchestrator.

Variable json_loads : string -> option value.
Variable call_llm : agent -> result string.
Variable py_str : value -> string.
Variable format_summary : string -> string -> Q -> list string -> string.

(** [datetime.now().strftime("%H:%M:%S")] at the n-th reading of the clock. *)
Variable clock : nat -> string.

(** The format [:.2f] of the final confidence. *)
Variable format_2f : Q -> string.

(** [str(e)]. *)
Variable str_exn : exn -> string.

(** [datetime.now()]. *)
Definition now : M nat :=
  fun st =>
    (Ok (clock_reads st),
     {| coordination_log := coordination_log st;
        clock_reads := S (clock_reads st) |}).

Definition log_entry (timestamp message : string) : string :=
  "[" ++ timestamp ++ "] " ++ message.

Definition _log (message : string) : M unit :=
  (t <- now ;;
   fun st =>
     (Ok tt,
      {| coordination_log :=
           (coordination_log st ++ [log_entry (clock t) message])%list;
         clock_reads := clock_reads st |}))%wf.

(** [self.coordination_log = []]. *)
Definition reset_log : M unit :=
  fun st => (Ok tt, {| coordination_log := []; clock_reads := clock_reads st |}).

(** [self.coordination_log.copy()], and the list itself. *)
Definition get_log : M (list string) :=
  fun st => (Ok (coordination_log st), st).

(** The state [_log] leaves behind, and the state in which the [try] block
    of [analyze_food_image] starts. *)
Definition logged (message : string) (st : orchestrator) : orchestrator :=
  {| coordination_log :=
       (coordination_log st ++ [log_entry (clock (clock_reads st)) message])%list;
     clock_reads := S (clock_reads st) |}.

Definition started (st : orchestrator) : orchestrator :=
  {| coordination_log := []; clock_reads := S (clock_reads st) |}.

(** One element of the list comprehension that builds [food_items]; the
    keyword arguments are evaluated in the order they are written. *)
Definition FoodItem_of (item : value) : result FoodItem.t :=
  (n <- Py.subscript item "name" ;;
   c <- Py.subscript item "category" ;;
   w <- Py.subscript item "estimated_weight" ;;
   conf <- Py.subscript item "confidence" ;;
   prep <- Py.subscript item "preparation" ;;
   w' <- Py.subscript item "estimated_weight" ;;
   Ok {| FoodItem.name := n;
         FoodItem.category := c;
         FoodItem.portion_size := py_str w ++ "g";
         FoodItem.confidence := conf;
         FoodItem.preparation_method := prep;
         FoodItem.estimated_weight := w' |})%py.

(** [sum(confidence_scores) / len(confidence_scores) if confidence_scores
    else 0.5], without rounding; [Binary64.aggregate_confidence] follows
    the rounding and the [OverflowError]. *)
Definition aggregate_confidence (confidence_scores : list value) : result Q :=
  if Py.is_empty confidence_scores then Ok 0.5%Q
  else (scores <- mapM Py.number confidence_scores ;;
        Ok (Py.sum scores / Py.len scores)%Q)%py.

(** The body of the [try] block of [analyze_food_image]. *)
Definition workflow (image_base64 : string)
    (user_profile : option (list (string * value))) (start_time : nat)
  : M AnalysisResult :=
  ((* Step 1: Planning Agent analyzes image and creates strategy *)
   _log "Planning Agent: Analyzing image and creating analysis strategy" ;;;
   plan <- lift (analyze_image_and_plan json_loads call_llm image_base64) ;;
   food_items <- lift (items <- Py.subscript plan "food_items" ;;
                       items <- Py.iterate items ;;
                       mapM FoodItem_of items)%py ;;
   (* Step 2: Nutrition Agent performs detailed nutritional analysis *)
   _log "Nutrition Agent: Calculating comprehensive nutrition data" ;;;
   nutrition <- lift (items <- Py.subscript plan "food_items" ;;
                      analyze_nutrition json_loads call_llm py_str items plan)%py ;;
   (* Step 3: Health Agent generates personalized recommendations *)
   _log "Health Agent: Generating personalized health recommendations" ;;;
   health_recommendations <-
     lift (items <- Py.subscript plan "food_items" ;;
           generate_recommendations json_loads call_llm nutrition items
             user_profile)%py ;;
   (* Step 4: Meal Planning Agent suggests complementary foods *)
   _log "Meal Planning Agent: Suggesting complementary foods" ;;;
   meal_suggestions <-
     lift (items <- Py.subscript plan "food_items" ;;
           suggest_complementary_foods json_loads call_llm nutrition items)%py ;;
   (* Calculate overall confidence *)
   let confidence_scores := map FoodItem.confidence food_items in
   overall_confidence <- lift (aggregate_confidence confidence_scores) ;;
   (* Create preliminary result *)
   log_copy <- get_log ;;
   let preliminary_result :=
     {| food_items := food_items;
        nutrition := nutrition;
        health_recommendations := health_recommendations;
        meal_suggestions := meal_suggestions;
        confidence_score := overall_confidence;
        analysis_timestamp := start_time;
        agent_coordination_log := log_copy |} in
   (* Step 5: Verification Agent validates the complete analysis *)
   _log "Verification Agent: Validating analysis results" ;;;
   verification <- lift (verify_analysis py_str format_summary preliminary_result) ;;
   (* Update confidence based on verification *)
   let final_confidence :=
     ((overall_confidence + Verification.confidence verification) / 2)%Q in
   _log ("Analysis completed with confidence: " ++ format_2f final_confidence) ;;;
   (* Return final result with verification info *)
   final_log <- get_log ;;
   ret {| food_items := food_items;
          nutrition := nutrition;
          health_recommendations := health_recommendations;
          meal_suggestions := meal_suggestions;
          confidence_score := final_confidence;
          analysis_timestamp := start_time;
          agent_coordination_log := final_log |})%wf.

Definition analyze_food_image (image_base64 : string)
    (user_profile : option (list (string * value))) : M AnalysisResult :=
  (reset_log ;;;
   start_time <- now ;;
   try_except (workflow image_base64 user_profile start_time)
     (fun e =>
        _log ("Error in workflow: " ++ str_exn e) ;;;
        raise e))%wf.

End Orchestrator.

(** ** Binary64 arithmetic

    The verification agent and the orchestrator add, multiply and divide
    the numbers of a reply.  Python does that on two kinds of numbers: an
    [int], exact and unbounded, and a [float], a binary64 number whose
    every operation rounds to the nearest float, ties to even.  [Binary64]
    follows the two checks, the verification and the aggregate confidence
    operation by operation on these numbers, with the exceptions the
    operations raise.  [sum] adds from left to right, as CPython does up to
    version 3.11. *)

Module Binary64.

(** The values the arithmetic tells apart: an [int], exact and unbounded; a
    [float], a binary64 number; a [bool], which counts as the int 0 or 1;
    and anything else ([None], [str], [list], [dict]).  An operation on
    anything else raises [TypeError].  Python repeats a [str] or a [list]
    multiplied by an int instead of raising, and raises [TypeError] at the
    addition or the subtraction that follows in the calorie check: the
    check raises the same exception either way. *)
Inductive value : Type :=
| Int (z : Z)
| Float (x : float)
| Bool (b : bool)
| Other.

Definition is_number (v : value) : bool :=
  match v with
  | Other => false
  | _ => true
  end.

(** The value as an [int], when it is one. *)
Definition as_int (v : value) : option Z :=
  match v with
  | Int z => Some z
  | Bool b => Some (if b then 1 else 0)%Z
  | _ => None
  end.

(** [float(z)]: the nearest binary64, ties to even; [OverflowError] when
    that is beyond the largest float. *)
Definition of_int (z : Z) : result float :=
  if (Z.abs z <? 2 ^ 63)%Z then
    let x := of_uint63 (Uint63.of_Z (Z.abs z)) in
    Ok (if (z <? 0)%Z then (- x)%float else x)
  else
    match SpecFloat.binary_normalize FloatOps.prec FloatOps.emax z 0 false with
    | SpecFloat.S754_infinity _ => Raise OverflowError
    | x => Ok (FloatOps.SF2Prim x)
    end.

(** The value as a [float] operand. *)
Definition as_float (v : value) : result float :=
  match v with
  | Float x => Ok x
  | Int z => of_int z
  | Bool b => Ok (if b then 1 else 0)%float
  | Other => Raise TypeError
  end.

(** [a op b] for [+], [-] and [*]: exact on two ints, in binary64 as soon
    as one operand is a float. *)
Definition arith (on_int : Z -> Z -> Z) (on_float : float -> float -> float)
    (a b : value) : result value :=
  if is_number a && is_number b then
    match as_int a, as_int b with
    | Some x, Some y => Ok (Int (on_int x y))
    | _, _ =>
        (x <- as_float a ;;
         y <- as_float b ;;
         Ok (Float (on_float x y)))%py
    end
  else Raise TypeError.

Definition add : value -> value -> result value := arith Z.add PrimFloat.add.
Definition sub : value -> value -> result value := arith Z.sub PrimFloat.sub.
Definition mul : value -> value -> result value := arith Z.mul PrimFloat.mul.

(** [abs(a)]. *)
Definition abs (a : value) : result value :=
  match a with
  | Float x => Ok (Float (PrimFloat.abs x))
  | Other => Raise TypeError
  | _ => match as_int a with
         | Some z => Ok (Int (Z.abs z))
         | None => Raise TypeError
         end
  end.

(** [x / y] on two ints, [y] not 0: the quotient rounded once to the
    nearest binary64. *)
Definition int_truediv (x y : Z) : result float :=
  let negative := xorb (x <? 0)%Z (y <? 0)%Z in
  match x with
  | Z0 => Ok (if negative then neg_zero else zero)
  | _ =>
      let '(q, e, l) :=
        SpecFloat.SFdiv_core_binary FloatOps.prec FloatOps.emax
          (Z.abs x) 0 (Z.abs y) 0 in
      match SpecFloat.binary_round_aux FloatOps.prec FloatOps.emax negative q e l with
      | SpecFloat.S754_infinity _ => Raise OverflowError
      | r => Ok (FloatOps.SF2Prim r)
      end
  end.

(** [a / b]: two ints give the quotient rounded once; otherwise both
    operands are floats, an int divisor being converted first. *)
Definition truediv (a b : value) : result value :=
  if is_number a && is_number b then
    match as_int a, as_int b with
    | Some x, Some y =>
        if (y =? 0)%Z then Raise ZeroDivisionError
        else (q <- int_truediv x y ;; Ok (Float q))%py
    | _, Some y =>
        (x <- as_float a ;;
         if (y =? 0)%Z then Raise ZeroDivisionError
         else (k <- of_int y ;; Ok (Float (x / k))))%py
    | _, None =>
        (x <- as_float a ;;
         y <- as_float b ;;
         if (y =? 0)%float then Raise ZeroDivisionError
         else Ok (Float (x / y)))%py
    end
  else Raise TypeError.

(** The order of an int and a float is exact: the int is not converted. *)
Definition signed (s : bool) (m : positive) : Z := if s then Zneg m else Zpos m.

Definition int_lt_float (z : Z) (x : float) : bool :=
  match FloatOps.Prim2SF x with
  | SpecFloat.S754_nan => false
  | SpecFloat.S754_infinity s => negb s
  | SpecFloat.S754_zero _ => (z <? 0)%Z
  | SpecFloat.S754_finite s m e =>
      if (0 <=? e)%Z then (z <? signed s m * 2 ^ e)%Z
      else (z * 2 ^ (- e) <? signed s m)%Z
  end.

Definition float_lt_int (x : float) (z : Z) : bool :=
  match FloatOps.Prim2SF x with
  | SpecFloat.S754_nan => false
  | SpecFloat.S754_infinity s => s
  | SpecFloat.S754_zero _ => (0 <? z)%Z
  | SpecFloat.S754_finite s m e =>
      if (0 <=? e)%Z then (signed s m * 2 ^ e <? z)%Z
      else (signed s m <? z * 2 ^ (- e))%Z
  end.

(** [a < b] and [a > b]. *)
Definition lt (a b : value) : result bool :=
  match a, b with
  | Other, _ | _, Other => Raise TypeError
  | Float x, Float y => Ok (x <? y)%float
  | Float x, _ =>
      match as_int b with
      | Some z => Ok (float_lt_int x z)
      | None => Raise TypeError
      end
  | _, Float y =>
      match as_int a with
      | Some z => Ok (int_lt_float z y)
      | None => Raise TypeError
      end
  | _, _ =>
      match as_int a, as_int b with
      | Some x, Some y => Ok (x <? y)%Z
      | _, _ => Raise TypeError
      end
  end.

Definition gt (a b : value) : result bool := lt b a.

(** [sum(xs)]: from the int 0, one addition per element, left to right. *)
Definition sum (xs : list value) : result value :=
  fold_left (fun acc x => (a <- acc ;; add a x)%py) xs (Ok (Int 0)).

Definition len {A : Type} (xs : list A) : value := Int (Z.of_nat (List.length xs)).

(** The exact value of a finite float. *)
Definition exact (x : float) : option Q :=
  match FloatOps.Prim2SF x with
  | SpecFloat.S754_zero _ => Some 0%Q
  | SpecFloat.S754_finite s m e =>
      Some (if (0 <=? e)%Z then inject_Z (signed s m * 2 ^ e)
            else (signed s m # Z.to_pos (2 ^ (- e))))%Q
  | _ => None
  end.

Record NutritionData : Type := {
  protein : value;
  carbohydrates : value;
  fats : value;
  fiber : value;
  calories : value;
  sodium : value;
  sugar : value;
  cholesterol : value;
  vitamin_c : value;
  calcium : value;
  iron : value
}.

(** The fields of an [AnalysisResult] that the verification reads. *)
Record AnalysisResult : Type := {
  nutrition : NutritionData;
  health_recommendations : list HealthRecommendation.t;
  meal_suggestions : list MealSuggestion.t;
  confidence_score : value
}.

Module Check.
Record t : Type := {
  confidence : float;
  status : string;
  issues : list string
}.
End Check.

Module Verification.
Record t : Type := {
  verified : bool;
  confidence : value;
  summary : string;
  issues : list string;
  recommendations_for_improvement : list string
}.
End Verification.

Section Verify.

Variable py_str : value -> string.
Variable format_summary : string -> string -> value -> list string -> string.

Definition _verify_nutrition_values (nutrition : NutritionData) : result Check.t :=
  (let issues := [] in
   (* Check for impossible values *)
   negative <- or_else (lt (protein nutrition) (Int 0))
                 (or_else (lt (carbohydrates nutrition) (Int 0))
                          (lt (fats nutrition) (Int 0))) ;;
   let issues := append_if negative negative_macros issues in
   (* Check calorie calculation *)
   protein_calories <- mul (protein nutrition) (Int 4) ;;
   carbohydrate_calories <- mul (carbohydrates nutrition) (Int 4) ;;
   partial <- add protein_calories carbohydrate_calories ;;
   fat_calories <- mul (fats nutrition) (Int 9) ;;
   calculated_calories <- add partial fat_calories ;;
   difference <- sub (calories nutrition) calculated_calories ;;
   distance <- abs difference ;;
   mismatch <- gt distance (Int 50) ;;
   let issues :=
     append_if mismatch
       (mismatch_prefix ++ py_str (calories nutrition) ++ " vs "
          ++ py_str calculated_calories)
       issues in
   (* Check extreme values *)
   high <- gt (sodium nutrition) (Int 2000) ;;
   let issues := append_if high very_high_sodium issues in
   let confidence := if Py.is_empty issues then 0.9%float else 0.6%float in
   let status := if Py.is_empty issues then "PASS" else "WARNINGS" in
   Ok {| Check.confidence := confidence;
         Check.status := status;
         Check.issues := issues |})%py.

Definition _verify_recommendations (recommendations : list HealthRecommendation.t)
    (nutrition : NutritionData) : result Check.t :=
  (let issues := [] in
   let issues := append_if (Py.is_empty recommendations) no_recommendations issues in
   (* Check recommendation relevance *)
   high_sodium <- gt (sodium nutrition) (Int 800) ;;
   low_fiber <- lt (fiber nutrition) (Int 5) ;;
   sodium_addressed <- any_mentions "sodium" recommendations ;;
   fiber_addressed <- any_mentions "fiber" recommendations ;;
   let issues := append_if (high_sodium && negb sodium_addressed) sodium_unaddressed issues in
   let issues := append_if (low_fiber && negb fiber_addressed) fiber_unaddressed issues in
   let confidence := if Py.is_empty issues then 0.8%float else 0.5%float in
   let status := if Py.is_empty issues then "PASS" else "WARNINGS" in
   Ok {| Check.confidence := confidence;
         Check.status := status;
         Check.issues := issues |})%py.

Definition _suggest_improvements (r : AnalysisResult) : result (list string) :=
  (let suggestions := [] in
   low <- lt (confidence_score r) (Float 0.8) ;;
   let suggestions :=
     append_if low
       "Consider requesting clearer food images for better identification"
       suggestions in
   let suggestions :=
     append_if (List.length (health_recommendations r) <? 3)%nat
       "Generate more comprehensive health recommendations"
       suggestions in
   let suggestions :=
     append_if (Py.is_empty (meal_suggestions r))
       "Include meal planning suggestions for complete nutrition"
       suggestions in
   Ok suggestions)%py.

Definition verify_analysis (r : AnalysisResult) : result Verification.t :=
  ((* Check nutritional consistency *)
   nutrition_check <- _verify_nutrition_values (nutrition r) ;;
   (* Check recommendation relevance *)
   recommendation_check <-
     _verify_recommendations (health_recommendations r) (nutrition r) ;;
   (* Calculate overall confidence *)
   let confidence_factors :=
     [Float (Check.confidence nutrition_check);
      Float (Check.confidence recommendation_check);
      confidence_score r] in
   total <- sum confidence_factors ;;
   overall_confidence <- truediv total (len confidence_factors) ;;
   let issues :=
     (Check.issues nutrition_check ++ Check.issues recommendation_check)%list in
   let summary :=
     format_summary (Check.status nutrition_check)
       (Check.status recommendation_check) overall_confidence issues in
   verified <- gt overall_confidence (Float 0.7) ;;
   improvements <- _suggest_improvements r ;;
   Ok {| Verification.verified := verified;
         Verification.confidence := overall_confidence;
         Verification.summary := summary;
         Verification.issues := issues;
         Verification.recommendations_for_improvement := improvements |})%py.

End Verify.

(** [sum(confidence_scores) / len(confidence_scores) if confidence_scores
    else 0.5]. *)
Definition aggregate_confidence (confidence_scores : list value) : result value :=
  if Py.is_empty confidence_scores then Ok (Float 0.5)
  else (total <- sum confidence_scores ;;
        truediv total (len confidence_scores))%py.

End Binary64.

(** ** A reference decoder

    The development is parametric in [json.loads].  To run the model on
    concrete replies, [Json.loads] decodes the JSON grammar the way Python's
    decoder does, for documents without [\u] escapes and without the
    constants [NaN] and [Infinity]: surrounding whitespace is skipped, a
    later duplicate key overwrites an earlier one, anything after the value
    is an error.  A number literal is read as the exact rational it
    writes, where Python reads a literal with a fraction or an exponent as
    the nearest float.  The decoder serves the examples, the witnesses
    and the counterexamples; the theorems hold for every decoder. *)

Module Json.

(** The double quote that delimits a string literal. *)
Definition quote : ascii := "034".

Definition is_ws (c : ascii) : bool :=
  let n := N_of_ascii c in
  ((n =? 32) || (n =? 9) || (n =? 10) || (n =? 13))%N.

Fixpoint skip_ws (s : string) : string :=
  match s with
  | String c rest => if is_ws c then skip_ws rest else s
  | EmptyString => s
  end.

(** [strip p s]: the rest of [s] after its prefix [p]. *)
Fixpoint strip (p s : string) : option string :=
  match p, s with
  | EmptyString, _ => Some s
  | String a p', String b s' => if Ascii.eqb a b then strip p' s' else None
  | String _ _, EmptyString => None
  end.

Definition digit (c : ascii) : option Z :=
  let n := N_of_ascii c in
  if ((48 <=? n) && (n <=? 57))%N then Some (Z.of_N (n - 48)) else None.

(** A maximal run of digits: its value, its length, and what follows. *)
Fixpoint digits (acc : Z) (count : nat) (s : string) : Z * nat * string :=
  match s with
  | String c rest =>
      match digit c with
      | Some d => digits (10 * acc + d) (S count) rest
      | None => (acc, count, s)
      end
  | EmptyString => (acc, count, s)
  end.

(** The integer part: a single 0, or a run of digits that starts with a
    non-zero digit. *)
Definition int_part (s : string) : option (Z * string) :=
  match s with
  | String c rest =>
      match digit c with
      | Some 0%Z => Some (0%Z, rest)
      | Some _ => let '(n, _, r) := digits 0 0 s in Some (n, r)
      | None => None
      end
  | EmptyString => None
  end.

(** An optional fraction [.ddd]: numerator, number of digits, rest. *)
Definition frac_part (s : string) : Z * nat * string :=
  match s with
  | String "." rest =>
      let '(n, k, r) := digits 0 0 rest in
      match k with
      | O => (0%Z, O, s)
      | S _ => (n, k, r)
      end
  | _ => (0%Z, O, s)
  end.

(** An optional exponent [e+dd]. *)
Definition exp_part (s : string) : Z * string :=
  match s with
  | String c rest =>
      if (Ascii.eqb c "e" || Ascii.eqb c "E")%bool then
        let '(sign, body) :=
          match rest with
          | String "-" r => ((-1)%Z, r)
          | String "+" r => (1%Z, r)
          | _ => (1%Z, rest)
          end in
        let '(n, k, r) := digits 0 0 body in
        match k with
        | O => (0%Z, s)
        | S _ => ((sign * n)%Z, r)
        end
      else (0%Z, s)
  | EmptyString => (0%Z, s)
  end.

Definition pow10 (k : Z) : Q :=
  if (k <? 0)%Z then 1 / inject_Z (10 ^ (- k)) else inject_Z (10 ^ k).

Definition number (s : string) : option (Q * string) :=
  let '(sign, body) :=
    match s with
    | String "-" r => ((-1)%Z, r)
    | _ => (1%Z, s)
    end in
  match int_part body with
  | None => None
  | Some (n, r1) =>
      let '(f, k, r2) := frac_part r1 in
      let '(e, r3) := exp_part r2 in
      let mantissa :=
        (inject_Z n + inject_Z f / inject_Z (10 ^ Z.of_nat k))%Q in
      Some (Qred (inject_Z sign * mantissa * pow10 e), r3)
  end.

Definition unescape (c : ascii) : option ascii :=
  if Ascii.eqb c quote then Some quote
  else if Ascii.eqb c "\" then Some "\"%char
  else if Ascii.eqb c "/" then Some "/"%char
  else if Ascii.eqb c "b" then Some "008"%char
  else if Ascii.eqb c "f" then Some "012"%char
  else if Ascii.eqb c "n" then Some "010"%char
  else if Ascii.eqb c "r" then Some "013"%char
  else if Ascii.eqb c "t" then Some "009"%char
  else None.

(** The characters of a string literal after its opening quote, up to the
    closing one; a raw control character is an error. *)
Fixpoint string_body (s : string) : option (string * string) :=
  match s with
  | EmptyString => None
  | String c rest =>
      if Ascii.eqb c quote then Some (EmptyString, rest)
      else if Ascii.eqb c "\" then
        match rest with
        | String e rest' =>
            match unescape e, string_body rest' with
            | Some a, Some (body, r) => Some (String a body, r)
            | _, _ => None
            end
        | EmptyString => None
        end
      else if (N_of_ascii c <? 32)%N then None
      else match string_body rest with
           | Some (body, r) => Some (String c body, r)
           | None => None
           end
  end.

Section Compound.

Variable value_at : string -> option (value * string).

(** The elements of an array after the first one has been found to exist. *)
Fixpoint elements (fuel : nat) (s : string) (acc : list value)
  : option (list value * string) :=
  match fuel with
  | O => None
  | S n =>
      match value_at s with
      | None => None
      | Some (v, r) =>
          match skip_ws r with
          | String c r' =>
              if Ascii.eqb c "," then elements n r' (acc ++ [v])%list
              else if Ascii.eqb c "]" then Some ((acc ++ [v])%list, r')
              else None
          | EmptyString => None
          end
      end
  end.

Fixpoint members (fuel : nat) (s : string) (acc : list (string * value))
  : option (list (string * value) * string) :=
  match fuel with
  | O => None
  | S n =>
      match strip (String quote EmptyString) (skip_ws s) with
      | None => None
      | Some r =>
          match string_body r with
          | None => None
          | Some (key, r1) =>
              match strip ":" (skip_ws r1) with
              | None => None
              | Some r2 =>
                  match value_at r2 with
                  | None => None
                  | Some (v, r3) =>
                      match skip_ws r3 with
                      | String c r4 =>
                          if Ascii.eqb c "," then members n r4 (Py.store key v acc)
                          else if Ascii.eqb c "}" then Some (Py.store key v acc, r4)
                          else None
                      | EmptyString => None
                      end
                  end
              end
          end
      end
  end.

End Compound.

Fixpoint value_at (fuel : nat) (s : string) : option (value * string) :=
  match fuel with
  | O => None
  | S n =>
      match skip_ws s with
      | EmptyString => None
      | String c rest as s' =>
          if Ascii.eqb c "{" then
            match strip "}" (skip_ws rest) with
            | Some r => Some (VDict [], r)
            | None =>
                match members (value_at n) n rest [] with
                | Some (ms, r) => Some (VDict ms, r)
                | None => None
                end
            end
          else if Ascii.eqb c "[" then
            match strip "]" (skip_ws rest) with
            | Some r => Some (VList [], r)
            | None =>
                match elements (value_at n) n rest [] with
                | Some (vs, r) => Some (VList vs, r)
                | None => None
                end
            end
          else if Ascii.eqb c quote then
            match string_body rest with
            | Some (str, r) => Some (VStr str, r)
            | None => None
            end
          else
            match strip "null" s', strip "true" s', strip "false" s' with
            | Some r, _, _ => Some (VNone, r)
            | _, Some r, _ => Some (VBool true, r)
            | _, _, Some r => Some (VBool false, r)
            | None, None, None =>
                match number s' with
                | Some (q, r) => Some (VNum q, r)
                | None => None
                end
            end
      end
  end.

Definition loads (s : string) : option value :=
  match value_at (S (String.length s)) s with
  | Some (v, r) =>
      match skip_ws r with
      | EmptyString => Some v
      | String _ _ => None
      end
  | None => None
  end.

End Json.

(** ** Notions the statements use *)

(** A text mentions a word, case-insensitively: some contiguous part of the
    text is the word once lowered. *)
Definition mentions (word text : string) : Prop :=
  exists before part after : string,
    text = before ++ part ++ after /\ PyStr.lower part = word.

(** A recommendation whose message is a text. *)
Definition has_text (rec : HealthRecommendation.t) : Prop :=
  exists m : string, HealthRecommendation.message rec = VStr m.

(** The character does not occur in the text. *)
Fixpoint free_of (c : ascii) (s : string) : Prop :=
  match s with
  | EmptyString => True
  | String a rest => a <> c /\ free_of c rest
  end.

(** The five entries the orchestrator logs before its stages, in the order
    of the source. *)
Definition stage_messages : list string :=
  ["Planning Agent: Analyzing image and creating analysis strategy";
   "Nutrition Agent: Calculating comprehensive nutrition data";
   "Health Agent: Generating personalized health recommendations";
   "Meal Planning Agent: Suggesting complementary foods";
   "Verification Agent: Validating analysis results"].

(** Messages as log entries, each stamped with its own reading of the
    clock, from the reading [first] on. *)
Fixpoint stamped (clock : nat -> string) (first : nat) (messages : list string)
  : list string :=
  match messages with
  | [] => []
  | m :: rest => log_entry (clock first) m :: stamped clock (S first) rest
  end.

(** The five fields the nutrition check reads hold these numbers. *)
Definition reads_numbers (n : NutritionData) (p c f cal so : Q) : Prop :=
  Py.number (protein n) = Ok p /\
  Py.number (carbohydrates n) = Ok c /\
  Py.number (fats n) = Ok f /\
  Py.number (calories n) = Ok cal /\
  Py.number (sodium n) = Ok so.

(** A value that is a number between 0 and 1. *)
Definition unit_confidence (v : value) : Prop :=
  exists q : Q, v = VNum q /\ (0 <= q <= 1)%Q.

(** Some recommendation of the list carries a text that mentions the
    word. *)
Definition mentioned (word : string) (recs : list HealthRecommendation.t) : Prop :=
  exists rec m, In rec recs /\ HealthRecommendation.message rec = VStr m /\
                mentions word m.

(** Status, confidence and issue list of a check agree, for the two
    confidences the check can give; the check lists at most three issues. *)
Definition fields_agree (chk : Check.t) (high low : Q) : Prop :=
  (Check.issues chk = [] ->
   Check.status chk = "PASS" /\ Check.confidence chk = high) /\
  (Check.issues chk <> [] ->
   Check.status chk = "WARNINGS" /\ Check.confidence chk = low) /\
  (Check.status chk = "PASS" -> Check.issues chk = []) /\
  (List.length (Check.issues chk) <= 3)%nat.

(** [dataclasses.asdict] on a nutrition record, as [main] applies it to
    the result before saving: the fields by name, in the order of their
    declaration. *)
Definition NutritionData_asdict (n : NutritionData) : list (string * value) :=
  [("protein", protein n); ("carbohydrates", carbohydrates n);
   ("fats", fats n); ("fiber", fiber n); ("calories", calories n);
   ("sodium", sodium n); ("sugar", sugar n); ("cholesterol", cholesterol n);
   ("vitamin_c", vitamin_c n); ("calcium", calcium n); ("iron", iron n)].

(** The keys the orchestrator reads in an item of the plan, in the order it
    reads them. *)
Definition item_keys : list string :=
  ["name"; "category"; "estimated_weight"; "confidence"; "preparation"].

(** A food item holds what the item of the plan holds under the five keys,
    and its portion size is the rendering of its weight followed by g. *)
Definition item_mapped (py_str : value -> string) (item : value)
    (f : FoodItem.t) : Prop :=
  Py.subscript item "name" = Ok (FoodItem.name f) /\
  Py.subscript item "category" = Ok (FoodItem.category f) /\
  Py.subscript item "estimated_weight" = Ok (FoodItem.estimated_weight f) /\
  Py.subscript item "confidence" = Ok (FoodItem.confidence f) /\
  Py.subscript item "preparation" = Ok (FoodItem.preparation_method f) /\
  FoodItem.portion_size f = py_str (FoodItem.estimated_weight f) ++ "g".

(** A value that is not a text. *)
Definition not_text (v : value) : Prop := forall s : string, v <> VStr s.

(** What an analysis found: the result without its timestamp and its
    log. *)
Definition findings (r : AnalysisResult)
  : list FoodItem.t * NutritionData * list HealthRecommendation.t
    * list MealSuggestion.t * Q :=
  (food_items r, nutrition r, health_recommendations r, meal_suggestions r,
   confidence_score r).

(** Two outcomes of an analysis agree up to timestamps and log: the same
    findings, or the same exception. *)
Definition same_outcome (a b : result AnalysisResult) : Prop :=
  match a, b with
  | Ok r1, Ok r2 => findings r1 = findings r2
  | Raise e1, Raise e2 => e1 = e2
  | _, _ => False
  end.




(** The run has raised [e] after [k] stage entries: the caller gets the
    exception and no result, and the log holds these entries and then the
    one error entry. *)
Definition fails_after (clock : nat -> string) (str_exn : exn -> string)
    (st : orchestrator) (k : nat) (e : exn)
    (outcome : result AnalysisResult * orchestrator) : Prop :=
  fst outcome = Raise e /\
  coordination_log (snd outcome) =
    stamped clock (S (clock_reads st))
      (firstn k stage_messages ++ [("Error in workflow: " ++ str_exn e)%string]).

(** ** A concrete environment

    Replies, a clock and renderings on which the model runs. *)

Module Scenario.

Definition render (v : value) : string :=
  match v with
  | VStr s => s
  | _ => "<value>"
  end.

Definition summary (nutrition_status recommendation_status : string)
    (overall_confidence : Q) (issues : list string) : string :=
  "Verification Results: " ++ nutrition_status ++ ", " ++ recommendation_status.

Definition noon (reading : nat) : string := "12:00:00".

Definition two_places (q : Q) : string := "<confidence>".

Definition describe (e : exn) : string :=
  match e with
  | KeyError key => "'" ++ key ++ "'"
  | TypeError => "<type error>"
  | AttributeError => "<attribute error>"
  | OverflowError => "<overflow error>"
  | ZeroDivisionError => "<zero division error>"
  | ApiError reason => reason
  end.

(** Every agent is answered with prose that holds no JSON. *)
Definition prose (a : agent) : result string :=
  Ok "I am sorry, I cannot help with that.".

(** The planning agent is answered with an empty JSON object. *)
Definition empty_plan (a : agent) : result string :=
  match a with
  | PlanningAgent => Ok "Here you go: {}"
  | _ => Ok "I am sorry, I cannot help with that."
  end.

(** The endpoint answers the first request with a non-200 status. *)
Definition unavailable (a : agent) : result string :=
  Raise (ApiError "API call failed with status 503: unavailable").

Definition rice_and_egg : list FoodItem.t :=
  [ {| FoodItem.name := VStr "rice"; FoodItem.category := VStr "grain";
       FoodItem.portion_size := "150g"; FoodItem.confidence := VNum 0.9;
       FoodItem.preparation_method := VStr "boiled";
       FoodItem.estimated_weight := VNum 150 |};
    {| FoodItem.name := VStr "egg"; FoodItem.category := VStr "protein";
       FoodItem.portion_size := "50g"; FoodItem.confidence := VNum 0.6;
       FoodItem.preparation_method := VStr "fried";
       FoodItem.estimated_weight := VNum 50 |} ].

(** Sodium 1500 mg and fiber 3 g, with one recommendation that mentions
    neither. *)
Definition salty : NutritionData :=
  {| protein := VNum 20.0; carbohydrates := VNum 30.0; fats := VNum 15.0;
     fiber := VNum 3; calories := VNum 300; sodium := VNum 1500;
     sugar := VNum 5.0; cholesterol := VNum 50; vitamin_c := VNum 10;
     calcium := VNum 100; iron := VNum 2.5 |}.

Definition drink_water : list HealthRecommendation.t :=
  [ {| HealthRecommendation.category := VStr "timing";
       HealthRecommendation.message := VStr "Drink Water before the meal.";
       HealthRecommendation.priority := VStr "low";
       HealthRecommendation.reasoning := VStr "Hydration supports digestion." |} ].

(** A JSON string literal. *)
Definition quoted (s : string) : string :=
  String Json.quote (s ++ String Json.quote EmptyString).

(** The inside of a small plan object, and the plan it decodes to. *)
Definition small_plan_inner : string :=
  quoted "food_items" ++ ": [], " ++ quoted "complexity" ++ ": " ++ quoted "simple".

Definition small_plan : value :=
  VDict [("food_items", VList []); ("complexity", VStr "simple")].




(** A recommendation whose message is a number, after one that mentions
    both sodium and fiber. *)
Definition numbered_message : HealthRecommendation.t :=
  {| HealthRecommendation.category := VStr "timing";
     HealthRecommendation.message := VNum 7;
     HealthRecommendation.priority := VStr "low";
     HealthRecommendation.reasoning := VStr "none" |}.

Definition less_salt_more_fiber : HealthRecommendation.t :=
  {| HealthRecommendation.category := VStr "nutrient_balance";
     HealthRecommendation.message := VStr "Less Sodium, more FIBER.";
     HealthRecommendation.priority := VStr "high";
     HealthRecommendation.reasoning := VStr "Both are off target." |}.

(** A plan whose one item has a number for a name. *)
Definition numbered_item : value :=
  VDict [("name", VNum 7); ("category", VStr "mixed");
         ("estimated_weight", VNum 150); ("preparation", VStr "raw");
         ("confidence", VNum 0.9)].

(** The planning agent answers with a plan whose one item is named by a
    number; the other agents answer with prose. *)
Definition numbered_plan_text : string :=
  "{" ++ quoted "food_items" ++ ": [{"
      ++ quoted "name" ++ ": 7, "
      ++ quoted "category" ++ ": " ++ quoted "mixed" ++ ", "
      ++ quoted "estimated_weight" ++ ": 150, "
      ++ quoted "preparation" ++ ": " ++ quoted "raw" ++ ", "
      ++ quoted "confidence" ++ ": 0.9}]}".

Definition numbered_name (a : agent) : result string :=
  match a with
  | PlanningAgent => Ok numbered_plan_text
  | _ => Ok "I am sorry, I cannot help with that."
  end.

Definition numbered_food : FoodItem.t :=
  {| FoodItem.name := VNum 7; FoodItem.category := VStr "mixed";
     FoodItem.portion_size := "<value>g"; FoodItem.confidence := VNum (9 # 10);
     FoodItem.preparation_method := VStr "raw";
     FoodItem.estimated_weight := VNum 150 |}.

(** The planning agent is answered with prose, the other agents are not
    answered. *)
Definition nutrition_down (a : agent) : result string :=
  match a with
  | PlanningAgent => Ok "I am sorry, I cannot help with that."
  | _ => Raise (ApiError "API call failed with status 503: unavailable")
  end.

(** A nutrition reply whose protein is a text. *)
Definition worded_nutrition_text : string :=
  "{" ++ quoted "protein" ++ ": " ++ quoted "plenty" ++ ", "
      ++ quoted "carbohydrates" ++ ": 30, "
      ++ quoted "fats" ++ ": 15, "
      ++ quoted "fiber" ++ ": 5, "
      ++ quoted "calories" ++ ": 300, "
      ++ quoted "sodium" ++ ": 500, "
      ++ quoted "sugar" ++ ": 5, "
      ++ quoted "cholesterol" ++ ": 50, "
      ++ quoted "vitamin_c" ++ ": 10, "
      ++ quoted "calcium" ++ ": 100, "
      ++ quoted "iron" ++ ": 2}".

Definition worded_nutrition (a : agent) : result string :=
  match a with
  | NutritionAgent => Ok worded_nutrition_text
  | _ => Ok "I am sorry, I cannot help with that."
  end.

(** Recommendations as a JSON array, the values they decode to and the
    records they make. *)
Definition advice_item (category message : string) : string :=
  "{" ++ quoted "category" ++ ": " ++ quoted category ++ ", "
      ++ quoted "message" ++ ": " ++ quoted message ++ ", "
      ++ quoted "priority" ++ ": " ++ quoted "high" ++ ", "
      ++ quoted "reasoning" ++ ": " ++ quoted "As measured." ++ "}".

Definition advice_value (category message : string) : value :=
  VDict [("category", VStr category); ("message", VStr message);
         ("priority", VStr "high"); ("reasoning", VStr "As measured.")].

Definition advice (category message : string) : HealthRecommendation.t :=
  {| HealthRecommendation.category := VStr category;
     HealthRecommendation.message := VStr message;
     HealthRecommendation.priority := VStr "high";
     HealthRecommendation.reasoning := VStr "As measured." |}.

Definition two_advices_text : string :=
  "My advice: [" ++ advice_item "sodium" "Use less salt." ++ ", "
                 ++ advice_item "fiber" "Add whole grains." ++ "]".

(** The second element lacks three of the four fields. *)
Definition one_bad_advice_text : string :=
  "My advice: [" ++ advice_item "sodium" "Use less salt." ++ ", {"
                 ++ quoted "message" ++ ": " ++ quoted "Add whole grains." ++ "}]".

(** A reply with braces in its prose, before the one JSON object. *)
Definition plan_object : string := "{" ++ quoted "food_items" ++ ": []}".

Definition braces_in_prose : string :=
  "Plan {draft}: " ++ plan_object ++ " Enjoy your meal.".









Definition idle : orchestrator :=
  {| coordination_log := []; clock_reads := 0 |}.

End Scenario.

(** * Properties *)

(** ** Numbers, lists and text *)

Lemma Qltb_lt (x y : Q) : Py.Qltb x y = true <-> (x < y)%Q.
Proof.
  unfold Py.Qltb. rewrite negb_true_iff. split.
  - intros E. apply Qnot_le_lt. intros L.
    apply Qle_bool_iff in L. congruence.
  - intros L. destruct (Qle_bool y x) eqn:E; [|reflexivity].
    apply Qle_bool_iff in E. exfalso. exact (Qlt_not_le _ _ L E).
Qed.

Lemma is_empty_true {A : Type} (xs : list A) : Py.is_empty xs = true <-> xs = [].
Proof. destruct xs; simpl; split; congruence. Qed.

Lemma in_append_if (c : bool) (x y : string) (xs : list string) :
  In y (append_if c x xs) <-> In y xs \/ (c = true /\ y = x).
Proof.
  unfold append_if. destruct c.
  - rewrite in_app_iff. simpl. intuition congruence.
  - intuition congruence.
Qed.

Lemma prefix_empty (s : string) : String.prefix "" s = true.
Proof. destruct s; reflexivity. Qed.

Lemma prefix_append (p r : string) : String.prefix p (p ++ r) = true.
Proof.
  induction p as [|a p IH]; simpl.
  - apply prefix_empty.
  - rewrite IH. destruct (ascii_dec a a); [reflexivity|contradiction].
Qed.

(** The sum Python computes from the left is the sum of the list. *)
Lemma fold_left_Qplus (xs : list Q) (a : Q) :
  (fold_left Qplus xs a == a + fold_right Qplus 0 xs)%Q.
Proof.
  revert a. induction xs as [|x xs IH]; intros a; simpl.
  - ring.
  - rewrite IH. ring.
Qed.

Lemma sum_fold_right (xs : list Q) : (Py.sum xs == fold_right Qplus 0 xs)%Q.
Proof. unfold Py.sum. rewrite fold_left_Qplus. ring. Qed.

Lemma mapM_number_VNum (qs : list Q) : mapM Py.number (map VNum qs) = Ok qs.
Proof.
  induction qs as [|q qs IH]; simpl.
  - reflexivity.
  - rewrite IH. reflexivity.
Qed.

(** ** The nutrition consistency check *)

(** What the check computes on a record whose five inspected fields are
    numbers: the three tests, in the order of the source. *)
Lemma verify_nutrition_numbers (py_str : value -> string)
    (p c f cal so : Q) (fb su ch vc ca ir : value) :
  let n := {| protein := VNum p; carbohydrates := VNum c; fats := VNum f;
              fiber := fb; calories := VNum cal; sodium := VNum so;
              sugar := su; cholesterol := ch; vitamin_c := vc;
              calcium := ca; iron := ir |} in
  let issues :=
    append_if (Py.Qltb 2000 so) very_high_sodium
      (append_if (Py.Qltb 50 (Qabs (cal - (p * 4 + c * 4 + f * 9))))
         (mismatch_prefix ++ py_str (VNum cal) ++ " vs "
            ++ py_str (VNum (p * 4 + c * 4 + f * 9)))
         (append_if (Py.Qltb p 0 || Py.Qltb c 0 || Py.Qltb f 0)
            negative_macros [])) in
  _verify_nutrition_values py_str n =
  Ok {| Check.confidence := if Py.is_empty issues then 0.9%Q else 0.6%Q;
        Check.status := if Py.is_empty issues then "PASS" else "WARNINGS";
        Check.issues := issues |}.
Proof.
  intros n issues. subst n issues.
  unfold _verify_nutrition_values, or_else, lt, gt. cbn [Py.number bind
    protein carbohydrates fats calories sodium].
  destruct (Py.Qltb p 0); [reflexivity|].
  cbn [bind orb]. destruct (Py.Qltb c 0); reflexivity.
Qed.

(** C10. Whenever the nutrition stage falls back, the record it returns is
    the fallback record (protein 20, carbohydrates 30, fats 15, calories
    300, sodium 500), and the nutrition consistency check passes it with an
    empty issue list, status PASS and confidence 0.9: the calories computed
    from the macros are 335, and 300 differs from 335 by 35, which is not
    more than 50. *)
Theorem fallback_nutrition_passes (json_loads : string -> option value)
    (py_str : value -> string) (response : string) (n : NutritionData) :
  parse_nutrition json_loads response = Ok (n, true) ->
  n = fallback_nutrition /\
  _verify_nutrition_values py_str n =
    Ok {| Check.confidence := 0.9%Q; Check.status := "PASS"; Check.issues := [] |} /\
  (4 * 20 + 4 * 30 + 9 * 15 == 335)%Q /\
  (Qabs (300 - 335) == 35)%Q /\
  (35 <= 50)%Q.
Proof.
  intros H.
  assert (E : n = fallback_nutrition).
  { unfold parse_nutrition in H.
    destruct (extract_json json_loads "{" "}" response) as [v|].
    - destruct (NutritionData_new v) as [n'|[]]; congruence.
    - congruence. }
  subst n. split; [reflexivity|]. split.
  - unfold fallback_nutrition. rewrite verify_nutrition_numbers. reflexivity.
  - repeat split; try reflexivity. discriminate.
Qed.

Lemma fallback_nutrition_passes_witness :
  fallback_nutrition = fallback_nutrition /\
  _verify_nutrition_values Scenario.render fallback_nutrition =
    Ok {| Check.confidence := 0.9%Q; Check.status := "PASS"; Check.issues := [] |} /\
  (4 * 20 + 4 * 30 + 9 * 15 == 335)%Q /\
  (Qabs (300 - 335) == 35)%Q /\
  (35 <= 50)%Q.
Proof.
  apply (@fallback_nutrition_passes Json.loads Scenario.render
           "The meal looks balanced." fallback_nutrition).
  reflexivity.
Defined.

(** ** Text lemmas *)

Lemma append_assoc (a b c : string) : (a ++ b) ++ c = a ++ (b ++ c).
Proof. induction a as [|x a IH]; simpl; [reflexivity|now rewrite IH]. Qed.

Lemma append_length (a b : string) :
  String.length (a ++ b) = (String.length a + String.length b)%nat.
Proof. induction a as [|x a IH]; simpl; [reflexivity|now rewrite IH]. Qed.

Lemma prefix_iff (p s : string) :
  String.prefix p s = true <-> exists r : string, s = p ++ r.
Proof.
  split.
  - revert s. induction p as [|a p IH]; intros s H.
    + exists s. reflexivity.
    + destruct s as [|b s]; simpl in H; [discriminate|].
      destruct (ascii_dec a b) as [->|]; [|discriminate].
      destruct (IH _ H) as [r ->]. exists r. reflexivity.
  - intros [r ->]. apply prefix_append.
Qed.

Lemma contains_iff (needle s : string) :
  PyStr.contains needle s = true <->
  exists a b : string, s = a ++ needle ++ b.
Proof.
  split.
  - induction s as [|x s IH]; cbn [PyStr.contains]; rewrite orb_true_iff;
      intros [H|H].
    + apply prefix_iff in H. destruct H as [r E]. exists "", r. exact E.
    + discriminate.
    + apply prefix_iff in H. destruct H as [r E]. exists "", r. exact E.
    + destruct (IH H) as (a & b & ->). exists (String x a), b. reflexivity.
  - intros (a & b & ->). induction a as [|x a IH].
    + cbn [append]. destruct (needle ++ b) eqn:E; cbn [PyStr.contains];
        rewrite <- E, prefix_append; reflexivity.
    + cbn [append PyStr.contains]. cbn [append] in IH. rewrite IH.
      apply orb_true_r.
Qed.

Lemma lower_append (a b : string) :
  PyStr.lower (a ++ b) = PyStr.lower a ++ PyStr.lower b.
Proof. induction a as [|x a IH]; simpl; [reflexivity|now rewrite IH]. Qed.

Lemma lower_split (m x y : string) :
  PyStr.lower m = x ++ y ->
  exists m1 m2 : string,
    m = m1 ++ m2 /\ PyStr.lower m1 = x /\ PyStr.lower m2 = y.
Proof.
  revert m. induction x as [|a x IH]; intros m H.
  - exists "", m. auto.
  - destruct m as [|b m]; simpl in H; [discriminate|].
    injection H as Ha Hm. destruct (IH _ Hm) as (m1 & m2 & -> & E1 & E2).
    exists (String b m1), m2. simpl. rewrite Ha, E1. auto.
Qed.

(** The membership test on the lowered message decides whether the
    message mentions the word. *)
Lemma mentions_iff (word text : string) :
  mentions word text <-> PyStr.contains word (PyStr.lower text) = true.
Proof.
  rewrite contains_iff. split.
  - intros (a & part & b & -> & E).
    exists (PyStr.lower a), (PyStr.lower b).
    rewrite !lower_append, E. reflexivity.
  - intros (a & b & E).
    apply lower_split in E. destruct E as (m1 & m2 & -> & E1 & E2).
    apply lower_split in E2. destruct E2 as (m3 & m4 & -> & E3 & E4).
    exists m1, m3, m4. auto.
Qed.

Lemma any_mentions_text (word : string) (recs : list HealthRecommendation.t) :
  Forall has_text recs ->
  exists b : bool,
    any_mentions word recs = Ok b /\
    (b = true <->
     exists rec m, In rec recs /\ HealthRecommendation.message rec = VStr m /\
                   mentions word m).
Proof.
  induction 1 as [|rec recs [m Hm] _ (b & Hb & IH)]; simpl.
  - exists false. split; [reflexivity|]. split; [discriminate|].
    intros (? & ? & [] & _).
  - rewrite Hm. cbn [Py.lower bind].
    destruct (PyStr.contains word (PyStr.lower m)) eqn:E.
    + exists true. split; [reflexivity|]. split; [|reflexivity].
      intros _. exists rec, m. rewrite mentions_iff. auto.
    + exists b. split; [exact Hb|]. rewrite IH. split.
      * intros (r & m' & Hin & Hr & Hmen). exists r, m'. auto.
      * intros (r & m' & [<-|Hin] & Hr & Hmen).
        -- rewrite Hm in Hr. injection Hr as <-.
           apply mentions_iff in Hmen. congruence.
        -- exists r, m'. auto.
Qed.

(** ** The recommendation relevance check *)

Lemma verify_recommendations_text (recs : list HealthRecommendation.t)
    (so fb : Q) (p c f cal su ch vc ca ir : value) :
  Forall has_text recs ->
  exists sodium_addressed fiber_addressed : bool,
    any_mentions "sodium" recs = Ok sodium_addressed /\
    any_mentions "fiber" recs = Ok fiber_addressed /\
    let issues :=
      append_if (Py.Qltb fb 5 && negb fiber_addressed) fiber_unaddressed
        (append_if (Py.Qltb 800 so && negb sodium_addressed) sodium_unaddressed
           (append_if (Py.is_empty recs) no_recommendations [])) in
    _verify_recommendations recs
      {| protein := p; carbohydrates := c; fats := f; fiber := VNum fb;
         calories := cal; sodium := VNum so; sugar := su; cholesterol := ch;
         vitamin_c := vc; calcium := ca; iron := ir |} =
    Ok {| Check.confidence := if Py.is_empty issues then 0.8%Q else 0.5%Q;
          Check.status := if Py.is_empty issues then "PASS" else "WARNINGS";
          Check.issues := issues |}.
Proof.
  intros T.
  destruct (any_mentions_text "sodium" T) as (b1 & E1 & _).
  destruct (any_mentions_text "fiber" T) as (b2 & E2 & _).
  exists b1, b2. split; [exact E1|]. split; [exact E2|].
  unfold _verify_recommendations, gt, lt.
  cbn [Py.number bind sodium fiber]. rewrite E1, E2. reflexivity.
Qed.

(** C6. For every recommendation list (whose messages are texts) and every
    nutrition record (with numbers for sodium and fiber), the relevance
    check returns; it flags an empty list; it flags sodium strictly above
    800 exactly when no message mentions "sodium" in any letter case; it
    flags fiber strictly below 5 exactly when no message mentions "fiber";
    and its confidence is 0.8 when nothing is flagged and 0.5 otherwise. *)
Theorem recommendation_relevance_check (recs : list HealthRecommendation.t)
    (so fb : Q) (p c f cal su ch vc ca ir : value) :
  Forall has_text recs ->
  exists chk : Check.t,
    _verify_recommendations recs
      {| protein := p; carbohydrates := c; fats := f; fiber := VNum fb;
         calories := cal; sodium := VNum so; sugar := su; cholesterol := ch;
         vitamin_c := vc; calcium := ca; iron := ir |} = Ok chk /\
    (In no_recommendations (Check.issues chk) <-> recs = []) /\
    (In sodium_unaddressed (Check.issues chk) <->
     (800 < so)%Q /\
     forall rec m, In rec recs -> HealthRecommendation.message rec = VStr m ->
                   ~ mentions "sodium" m) /\
    (In fiber_unaddressed (Check.issues chk) <->
     (fb < 5)%Q /\
     forall rec m, In rec recs -> HealthRecommendation.message rec = VStr m ->
                   ~ mentions "fiber" m) /\
    (Check.issues chk = [] -> Check.confidence chk = 0.8%Q) /\
    (Check.issues chk <> [] -> Check.confidence chk = 0.5%Q).
Proof.
  intros T.
  destruct (verify_recommendations_text so fb p c f cal su ch vc ca ir T)
    as (b1 & b2 & E1 & E2 & E).
  destruct (any_mentions_text "sodium" T) as (b1' & E1' & S1).
  destruct (any_mentions_text "fiber" T) as (b2' & E2' & S2).
  assert (b1' = b1) by congruence. assert (b2' = b2) by congruence.
  subst b1' b2'. clear E1 E2 E1' E2'.
  eexists. split; [exact E|]. clear E.
  cbn [Check.issues Check.confidence].
  assert (U : forall (b : bool) (word : string),
             (b = true <->
              exists rec m, In rec recs /\
                HealthRecommendation.message rec = VStr m /\ mentions word m) ->
             (negb b = true <->
              forall rec m, In rec recs ->
                HealthRecommendation.message rec = VStr m -> ~ mentions word m)).
  { intros b word S. rewrite negb_true_iff. split.
    - intros F rec m Hin Hm Hmen.
      assert (b = true) by (apply S; exists rec, m; auto). congruence.
    - intros F. destruct b; [|reflexivity].
      destruct (proj1 S eq_refl) as (rec & m & Hin & Hm & Hmen).
      exfalso. exact (F rec m Hin Hm Hmen). }
  split; [|split; [|split; [|split]]].
  - rewrite !in_append_if. rewrite is_empty_true. simpl.
    split; [|tauto]. intros [[[[]|[Hr _]]|[_ D]]|[_ D]];
      [exact Hr|discriminate D|discriminate D].
  - rewrite !in_append_if. rewrite !andb_true_iff, !Qltb_lt, (U _ _ S1). simpl.
    split; [|tauto]. intros [[[[]|[_ D]]|[H _]]|[_ D]];
      [discriminate D|exact H|discriminate D].
  - rewrite !in_append_if. rewrite !andb_true_iff, !Qltb_lt, (U _ _ S2). simpl.
    split; [|tauto]. intros [[[[]|[_ D]]|[_ D]]|[H _]];
      [discriminate D|discriminate D|exact H].
  - intros E0. apply is_empty_true in E0. rewrite E0. reflexivity.
  - intros N.
    match goal with
    | |- (if ?b then _ else _) = _ => destruct b eqn:E0; [|reflexivity]
    end.
    apply is_empty_true in E0. contradiction.
Qed.

Lemma recommendation_relevance_check_witness :
  exists chk : Check.t,
    _verify_recommendations Scenario.drink_water Scenario.salty = Ok chk /\
    (In no_recommendations (Check.issues chk) <-> Scenario.drink_water = []) /\
    (In sodium_unaddressed (Check.issues chk) <->
     (800 < 1500)%Q /\
     forall rec m, In rec Scenario.drink_water ->
                   HealthRecommendation.message rec = VStr m ->
                   ~ mentions "sodium" m) /\
    (In fiber_unaddressed (Check.issues chk) <->
     (3 < 5)%Q /\
     forall rec m, In rec Scenario.drink_water ->
                   HealthRecommendation.message rec = VStr m ->
                   ~ mentions "fiber" m) /\
    (Check.issues chk = [] -> Check.confidence chk = 0.8%Q) /\
    (Check.issues chk <> [] -> Check.confidence chk = 0.5%Q).
Proof.
  apply (@recommendation_relevance_check Scenario.drink_water 1500 3).
  repeat constructor. eexists. reflexivity.
Defined.

(** ** Cutting the payload out of a reply *)

Lemma find_free (c : ascii) (s : string) : free_of c s -> PyStr.find c s = (-1)%Z.
Proof.
  induction s as [|a s IH]; cbn [PyStr.find free_of].
  - reflexivity.
  - intros [N F]. apply Ascii.eqb_neq in N. rewrite N, (IH F). reflexivity.
Qed.

Lemma find_first (c : ascii) (before rest : string) :
  free_of c before ->
  PyStr.find c (before ++ String c rest) = Z.of_nat (String.length before).
Proof.
  induction before as [|a s IH]; cbn [append PyStr.find free_of String.length].
  - intros _. rewrite Ascii.eqb_refl. reflexivity.
  - intros [N F]. apply Ascii.eqb_neq in N. rewrite N, (IH F).
    destruct (Z.of_nat (String.length s) <? 0)%Z eqn:E.
    + apply Z.ltb_lt in E. lia.
    + lia.
Qed.

Lemma rfind_free (c : ascii) (s : string) : free_of c s -> PyStr.rfind c s = (-1)%Z.
Proof.
  induction s as [|a s IH]; cbn [PyStr.rfind free_of].
  - reflexivity.
  - intros [N F]. apply Ascii.eqb_neq in N. rewrite N, (IH F). reflexivity.
Qed.

Lemma rfind_last (c : ascii) (before after : string) :
  free_of c after ->
  PyStr.rfind c (before ++ String c after) = Z.of_nat (String.length before).
Proof.
  intros F. induction before as [|a s IH]; cbn [append PyStr.rfind String.length].
  - rewrite (rfind_free _ _ F), Ascii.eqb_refl. reflexivity.
  - rewrite IH.
    destruct (0 <=? Z.of_nat (String.length s))%Z eqn:E.
    + lia.
    + apply Z.leb_gt in E. lia.
Qed.

Lemma substring_whole (b c : string) : substring 0 (String.length b) (b ++ c) = b.
Proof.
  induction b as [|x b IH]; cbn [append String.length].
  - destruct c; reflexivity.
  - cbn [substring]. rewrite IH. reflexivity.
Qed.

Lemma substring_skip (a s : string) (m : nat) :
  substring (String.length a) m (a ++ s) = substring 0 m s.
Proof.
  induction a as [|x a IH]; cbn [append String.length].
  - reflexivity.
  - cbn [substring]. exact IH.
Qed.

Lemma slice_middle (a b c : string) :
  PyStr.slice (a ++ b ++ c) (Z.of_nat (String.length a))
    (Z.of_nat (String.length a) + Z.of_nat (String.length b)) = b.
Proof.
  unfold PyStr.slice, PyStr.clip. rewrite !append_length.
  set (la := String.length a). set (lb := String.length b).
  set (lc := String.length c).
  destruct (Z.of_nat la <? 0)%Z eqn:E1; [apply Z.ltb_lt in E1; lia|].
  destruct (Z.of_nat la + Z.of_nat lb <? 0)%Z eqn:E2; [apply Z.ltb_lt in E2; lia|].
  rewrite !Z.min_l by lia.
  destruct (Z.of_nat la <? Z.of_nat la + Z.of_nat lb)%Z eqn:E3.
  - replace (Z.to_nat (Z.of_nat la)) with la by lia.
    replace (Z.to_nat (Z.of_nat la + Z.of_nat lb - Z.of_nat la)) with lb by lia.
    subst la lb. rewrite substring_skip. apply substring_whole.
  - apply Z.ltb_ge in E3. destruct b; [reflexivity|]. simpl in lb. lia.
Qed.

(** Without either delimiter the slice is [response[-1:0]], which is
    empty. *)
Lemma slice_no_delimiters (s : string) : PyStr.slice s (-1) (-1 + 1) = EmptyString.
Proof.
  unfold PyStr.slice.
  set (len := Z.of_nat (String.length s)).
  assert (Ha : (0 <= PyStr.clip len (-1))%Z).
  { unfold PyStr.clip. change (-1 <? 0)%Z with true. cbv iota. lia. }
  assert (Hb : PyStr.clip len (-1 + 1) = 0%Z).
  { unfold PyStr.clip. change (-1 + 1 <? 0)%Z with false. cbv iota.
    change (-1 + 1)%Z with 0%Z. subst len. lia. }
  rewrite Hb.
  destruct (PyStr.clip len (-1) <? 0)%Z eqn:E.
  - apply Z.ltb_lt in E. lia.
  - reflexivity.
Qed.

Section Extraction.

Variable json_loads : string -> option value.

(** A reply that holds one payload, from the opening delimiter to the
    closing one, between a prose without the opening delimiter and a prose
    without the closing one: the payload is what gets decoded. *)
Lemma extract_json_embedded (opening closing : ascii)
    (before inner after : string) :
  free_of opening before ->
  free_of closing after ->
  let payload := String opening (inner ++ String closing EmptyString) in
  extract_json json_loads opening closing (before ++ payload ++ after)
  = json_loads payload.
Proof.
  intros Fb Fa payload. unfold extract_json. f_equal.
  assert (E1 : PyStr.find opening (before ++ payload ++ after)
               = Z.of_nat (String.length before)).
  { subst payload. cbn [append]. apply find_first. exact Fb. }
  assert (E2 : PyStr.rfind closing (before ++ payload ++ after)
               = (Z.of_nat (String.length before)
                  + Z.of_nat (String.length payload) - 1)%Z).
  { subst payload. cbn [append String.length].
    replace (before ++ String opening
               ((inner ++ String closing EmptyString) ++ after))
      with ((before ++ String opening inner) ++ String closing after).
    - rewrite (rfind_last _ _ _ Fa), !append_length. cbn [String.length]. lia.
    - rewrite !append_assoc. reflexivity. }
  rewrite E1, E2.
  replace (Z.of_nat (String.length before) + Z.of_nat (String.length payload)
           - 1 + 1)%Z
    with (Z.of_nat (String.length before) + Z.of_nat (String.length payload))%Z
    by lia.
  apply slice_middle.
Qed.

Lemma extract_json_no_delimiters (opening closing : ascii) (response : string) :
  free_of opening response ->
  free_of closing response ->
  extract_json json_loads opening closing response = json_loads EmptyString.
Proof.
  intros Fo Fc. unfold extract_json.
  rewrite (find_free _ _ Fo), (rfind_free _ _ Fc), slice_no_delimiters.
  reflexivity.
Qed.

End Extraction.

Ltac free_of_text := cbn [free_of]; repeat (split; [discriminate|]); exact I.

(** ** Runs of the orchestrator *)


Lemma bindM_Ok_inv {A B : Type} (m : M A) (k : A -> M B) (st st' : orchestrator)
    (b : B) :
  bindM m k st = (Ok b, st') ->
  exists (a : A) (st1 : orchestrator), m st = (Ok a, st1) /\ k a st1 = (Ok b, st').
Proof.
  unfold bindM. destruct (m st) as [[a|e] st1]; [eauto|discriminate].
Qed.

Lemma lift_Ok_inv {A : Type} (r : result A) (st st' : orchestrator) (a : A) :
  lift r st = (Ok a, st') -> r = Ok a /\ st' = st.
Proof. unfold lift. intros E. injection E as -> ->. auto. Qed.

Section Runs.

Variable json_loads : string -> option value.
Variable call_llm : agent -> result string.
Variable py_str : value -> string.
Variable format_summary : string -> string -> Q -> list string -> string.
Variable clock : nat -> string.
Variable format_2f : Q -> string.
Variable str_exn : exn -> string.

Local Abbreviation run_workflow :=
  (workflow json_loads call_llm py_str format_summary clock format_2f).
Local Abbreviation run_analysis :=
  (analyze_food_image json_loads call_llm py_str format_summary clock format_2f
     str_exn).

Lemma _log_run (message : string) (st : orchestrator) :
  _log clock message st = (Ok tt, logged clock message st).
Proof. reflexivity. Qed.

(** [analyze_food_image] in one step: the [try] block runs from the started
    state; its result is returned as it is, and its exception is logged and
    raised again. *)
Lemma analyze_food_image_run (image_base64 : string)
    (user_profile : option (list (string * value))) (st : orchestrator) :
  run_analysis image_base64 user_profile st =
  match run_workflow image_base64 user_profile (clock_reads st) (started st) with
  | (Ok r, st1) => (Ok r, st1)
  | (Raise e, st1) =>
      (Raise e, logged clock ("Error in workflow: " ++ str_exn e) st1)
  end.
Proof.
  unfold analyze_food_image, try_except, bindM, reset_log, now, started.
  cbn [coordination_log clock_reads].
  destruct (workflow _ _ _ _ _ _ _ _ _ _) as [[r|e] st1]; reflexivity.
Qed.

(** What a run of the [try] block that returns went through. *)
Lemma workflow_Ok_inv (image_base64 : string)
    (user_profile : option (list (string * value))) (start_time : nat)
    (st st' : orchestrator) (r : AnalysisResult) :
  run_workflow image_base64 user_profile start_time st = (Ok r, st') ->
  exists (overall_confidence : Q) (log_copy : list string)
         (verification : Verification.t),
    aggregate_confidence (map FoodItem.confidence (food_items r))
      = Ok overall_confidence /\
    verify_analysis py_str format_summary
      {| food_items := food_items r;
         nutrition := nutrition r;
         health_recommendations := health_recommendations r;
         meal_suggestions := meal_suggestions r;
         confidence_score := overall_confidence;
         analysis_timestamp := start_time;
         agent_coordination_log := log_copy |} = Ok verification /\
    confidence_score r
      = ((overall_confidence + Verification.confidence verification) / 2)%Q /\
    agent_coordination_log r = coordination_log st'.
Proof.
  unfold workflow. intros H.
  repeat match type of H with
  | bindM (_log _ _) _ _ = _ =>
      apply bindM_Ok_inv in H;
      let x := fresh "x" in let s := fresh "s" in let E := fresh "E" in
      destruct H as (x & s & E & H);
      rewrite _log_run in E; injection E as <- <-
  | bindM (lift _) _ _ = _ =>
      apply bindM_Ok_inv in H;
      let x := fresh "x" in let s := fresh "s" in let E := fresh "E" in
      destruct H as (x & s & E & H);
      apply lift_Ok_inv in E; destruct E as [E ->]
  | bindM get_log _ _ = _ =>
      apply bindM_Ok_inv in H;
      let x := fresh "x" in let s := fresh "s" in let E := fresh "E" in
      destruct H as (x & s & E & H);
      unfold get_log in E; injection E as <- <-
  end.
  unfold ret in H. injection H as <- <-. cbn [food_items nutrition
    health_recommendations meal_suggestions confidence_score
    agent_coordination_log].
  eauto 10.
Qed.


End Runs.


(** ** Negative nutrient values *)




(** ** Extraction failures *)

Lemma kwargs_raises (v : value) (e : exn) : Py.kwargs v = Raise e -> e = TypeError.
Proof. destruct v; simpl; congruence. Qed.

Lemma iterate_raises (v : value) (e : exn) : Py.iterate v = Raise e -> e = TypeError.
Proof. destruct v; simpl; congruence. Qed.

Lemma mapM_raises {A B : Type} (f : A -> result B) (xs : list A) (e : exn) :
  (forall x e', f x = Raise e' -> e' = TypeError) ->
  mapM f xs = Raise e -> e = TypeError.
Proof.
  intros F. induction xs as [|x xs IH]; simpl; [discriminate|].
  destruct (f x) as [y|e'] eqn:E; simpl.
  - destruct (mapM f xs) as [ys|e'']; simpl; [discriminate|].
    intros H. injection H as <-. apply IH. reflexivity.
  - intros H. injection H as <-. exact (F _ _ E).
Qed.

Lemma NutritionData_new_raises (v : value) (e : exn) :
  NutritionData_new v = Raise e -> e = TypeError.
Proof.
  unfold NutritionData_new. destruct (Py.kwargs v) as [kw|e'] eqn:K; simpl.
  - destruct (Py.accepts _ _); congruence.
  - intros H. injection H as <-. exact (kwargs_raises _ K).
Qed.

Lemma HealthRecommendation_new_raises (v : value) (e : exn) :
  HealthRecommendation.new v = Raise e -> e = TypeError.
Proof.
  unfold HealthRecommendation.new. destruct (Py.kwargs v) as [kw|e'] eqn:K; simpl.
  - destruct (Py.accepts _ _); congruence.
  - intros H. injection H as <-. exact (kwargs_raises _ K).
Qed.

Lemma MealSuggestion_new_raises (v : value) (e : exn) :
  MealSuggestion.new v = Raise e -> e = TypeError.
Proof.
  unfold MealSuggestion.new. destruct (Py.kwargs v) as [kw|e'] eqn:K; simpl.
  - destruct (Py.accepts _ _); congruence.
  - intros H. injection H as <-. exact (kwargs_raises _ K).
Qed.

Lemma records_raise {A : Type} (new : value -> result A) (v : value) (e : exn) :
  (forall x e', new x = Raise e' -> e' = TypeError) ->
  (items <- Py.iterate v ;; mapM new items)%py = Raise e -> e = TypeError.
Proof.
  intros F. destruct (Py.iterate v) as [items|e'] eqn:I; simpl.
  - apply mapM_raises. exact F.
  - intros H. injection H as <-. exact (iterate_raises _ I).
Qed.

Section Absorption.

Variable json_loads : string -> option value.
Variable call_llm : agent -> result string.
Variable py_str : value -> string.

(** The handling of a reply returns, whatever the reply. *)
Lemma parse_nutrition_returns (response : string) :
  exists r, parse_nutrition json_loads response = Ok r.
Proof.
  unfold parse_nutrition.
  destruct (extract_json json_loads "{" "}" response) as [v|]; [|eauto].
  destruct (NutritionData_new v) as [n|e] eqn:E; [eauto|].
  rewrite (NutritionData_new_raises _ E). eauto.
Qed.

Lemma parse_recommendations_returns (response : string) :
  exists r, parse_recommendations json_loads response = Ok r.
Proof.
  unfold parse_recommendations.
  destruct (extract_json json_loads "[" "]" response) as [v|]; [|eauto].
  destruct (_ <- Py.iterate v ;; _)%py as [n|e] eqn:E; [eauto|].
  rewrite (records_raise _ _ HealthRecommendation_new_raises E). eauto.
Qed.

End Absorption.

(** C4. The claim fails in the planning stage, by a slip of the code:
    the reply holds an empty object, which lacks [food_items]; the stage
    returns it and not the fallback plan, and the run ends with a
    [KeyError] although every call of the generation client succeeded.
    The same kind of reply is absorbed by the three other stages, whose
    record constructors run inside their [try] blocks. *)
Lemma unshaped_plan_not_absorbed :
  (forall a : agent, exists text : string, Scenario.empty_plan a = Ok text) /\
  parse_plan Json.loads "Here you go: {}" = (VDict [], false) /\
  Py.subscript (VDict []) "food_items" = Raise (KeyError "food_items") /\
  fst (analyze_food_image Json.loads Scenario.empty_plan Scenario.render
         Scenario.summary Scenario.noon Scenario.two_places Scenario.describe
         "aW1hZ2U=" None Scenario.idle)
  = Raise (KeyError "food_items") /\
  parse_nutrition Json.loads "Here you go: {}" = Ok (fallback_nutrition, true) /\
  parse_recommendations Json.loads "Here you go: [{}]"
  = Ok (fallback_recommendations, true) /\
  parse_suggestions Json.loads "Here you go: [{}]"
  = Ok (fallback_suggestions, true).
Proof.
  split; [|split; [|split; [|split; [|split; [|split]]]]].
  - intros []; eexists; reflexivity.
  - vm_compute. reflexivity.
  - reflexivity.
  - vm_compute. reflexivity.
  - vm_compute. reflexivity.
  - vm_compute. reflexivity.
  - vm_compute. reflexivity.
Qed.

(** ** An object between two proses *)

(** C7, as stated, fails: the reply holds exactly one well-formed JSON
    object between two proses, but the prose before it holds braces of its
    own, so the cut starts too early and the planning stage falls back; and
    in the nutrition stage a well-formed object that lacks the fields of
    the record makes the stage fall back as well. *)
Lemma braces_in_prose_fall_back :
  Json.loads Scenario.plan_object = Some (VDict [("food_items", VList [])]) /\
  Json.loads "Plan {draft}: " = None /\
  Json.loads " Enjoy your meal." = None /\
  parse_plan Json.loads Scenario.braces_in_prose = (fallback_plan, true) /\
  parse_nutrition Json.loads ("Here it is: " ++ Scenario.plan_object ++ " Enjoy.")
  = Ok (fallback_nutrition, true).
Proof. repeat split; vm_compute; reflexivity. Qed.

Section Embedded.

Variable json_loads : string -> option value.

(** C7, amended. A reply made of a prose without an opening brace, one
    well-formed JSON object, and a prose without a closing brace is cut
    from the first opening brace to the last closing one and decoded: the
    planning stage returns the decoded object and does not fall back; the
    nutrition stage returns the record made of the object and does not
    fall back when the object has exactly the fields of the record, and
    falls back when it has not.  A reply without braces makes both stages
    fall back. *)
Theorem extract_object_or_fallback (before inner after response : string)
    (v : value) :
  (free_of "{" before ->
   free_of "}" after ->
   json_loads ("{" ++ inner ++ "}") = Some v ->
   let reply := before ++ ("{" ++ inner ++ "}") ++ after in
   extract_json json_loads "{" "}" reply = Some v /\
   parse_plan json_loads reply = (v, false) /\
   (forall n : NutritionData,
      NutritionData_new v = Ok n ->
      parse_nutrition json_loads reply = Ok (n, false)) /\
   (forall e : exn,
      NutritionData_new v = Raise e ->
      parse_nutrition json_loads reply = Ok (fallback_nutrition, true))) /\
  (free_of "{" response ->
   free_of "}" response ->
   json_loads EmptyString = None ->
   parse_plan json_loads response = (fallback_plan, true) /\
   parse_nutrition json_loads response = Ok (fallback_nutrition, true)).
Proof.
  split.
  - intros Fb Fa L reply.
    assert (E : extract_json json_loads "{" "}" reply = Some v).
    { rewrite <- L. apply (extract_json_embedded json_loads "{" "}" before inner after Fb Fa). }
    split; [exact E|]. unfold parse_plan, parse_nutrition. rewrite E.
    split; [reflexivity|]. split.
    + intros n N. rewrite N. reflexivity.
    + intros e N. rewrite N. rewrite (NutritionData_new_raises _ N). reflexivity.
  - intros Fo Fc L. unfold parse_plan, parse_nutrition.
    rewrite (extract_json_no_delimiters json_loads _ _ _ Fo Fc), L. auto.
Qed.

End Embedded.

Lemma extract_object_or_fallback_witness :
  (let reply :=
     "Here is the plan: " ++ ("{" ++ Scenario.small_plan_inner ++ "}")
       ++ " Enjoy your meal." in
   extract_json Json.loads "{" "}" reply = Some Scenario.small_plan /\
   parse_plan Json.loads reply = (Scenario.small_plan, false) /\
   (forall n : NutritionData,
      NutritionData_new Scenario.small_plan = Ok n ->
      parse_nutrition Json.loads reply = Ok (n, false)) /\
   (forall e : exn,
      NutritionData_new Scenario.small_plan = Raise e ->
      parse_nutrition Json.loads reply = Ok (fallback_nutrition, true))) /\
  (parse_plan Json.loads "I cannot see any food." = (fallback_plan, true) /\
   parse_nutrition Json.loads "I cannot see any food."
     = Ok (fallback_nutrition, true)).
Proof.
  destruct (extract_object_or_fallback Json.loads "Here is the plan: "
              Scenario.small_plan_inner " Enjoy your meal."
              "I cannot see any food." Scenario.small_plan) as [H1 H2].
  split.
  - apply H1; [free_of_text|free_of_text|reflexivity].
  - apply H2; [free_of_text|free_of_text|reflexivity].
Defined.

(** ** Scenarios *)

(** Protein 20, carbohydrates 30, fats 15 with 100 stated calories: the
    computed calories are 335, the mismatch is flagged and the confidence
    of the check is 0.6. *)
Example stated_calories_100 :
  _verify_nutrition_values Scenario.render
    {| protein := VNum 20; carbohydrates := VNum 30; fats := VNum 15;
       fiber := VNum 5; calories := VNum 100; sodium := VNum 500;
       sugar := VNum 5; cholesterol := VNum 50; vitamin_c := VNum 10;
       calcium := VNum 100; iron := VNum 2.5 |}
  = Ok {| Check.confidence := 0.6;
          Check.status := "WARNINGS";
          Check.issues := ["Calorie calculation mismatch: <value> vs <value>"] |}.
Proof. reflexivity. Qed.

(** A closing brace at the very end and no opening brace: the slice is
    [response[-1:len]], the closing brace alone, which does not decode. *)
Example closing_brace_only :
  PyStr.slice "done }" (PyStr.find "{" "done }") (PyStr.rfind "}" "done }" + 1) = "}" /\
  parse_plan Json.loads "done }" = (fallback_plan, true).
Proof. split; reflexivity. Qed.

(** A nutrition reply whose object lacks fields is rejected by the
    constructor, and the stage falls back. *)
Example nutrition_keys_missing :
  parse_nutrition Json.loads
    ("{" ++ Scenario.quoted "protein" ++ ": 12, "
         ++ Scenario.quoted "calories" ++ ": 250}")
  = Ok (fallback_nutrition, true).
Proof. reflexivity. Qed.

(** An empty food item list from the planning stage: the nutrition stage
    is still called, and the aggregate confidence is 0.5. *)
Example empty_food_item_list :
  analyze_nutrition Json.loads Scenario.prose Scenario.render (VList [])
    Scenario.small_plan = Ok fallback_nutrition /\
  aggregate_confidence (map FoodItem.confidence []) = Ok 0.5%Q.
Proof. split; reflexivity. Qed.

(** * Further properties of the code *)

(** ** The coordination log *)

Lemma stamped_app (clock : nat -> string) (first : nat) (xs ys : list string) :
  stamped clock first (xs ++ ys)%list
  = (stamped clock first xs ++ stamped clock (first + List.length xs) ys)%list.
Proof.
  revert first. induction xs as [|x xs IH]; intros first; simpl.
  - rewrite Nat.add_0_r. reflexivity.
  - rewrite IH. replace (S first + List.length xs)%nat
      with (first + S (List.length xs))%nat by lia. reflexivity.
Qed.

Section Trace.

Variable json_loads : string -> option value.
Variable call_llm : agent -> result string.
Variable py_str : value -> string.
Variable format_summary : string -> string -> Q -> list string -> string.
Variable clock : nat -> string.
Variable format_2f : Q -> string.
Variable str_exn : exn -> string.

Local Abbreviation run_workflow :=
  (workflow json_loads call_llm py_str format_summary clock format_2f).
Local Abbreviation run_analysis :=
  (analyze_food_image json_loads call_llm py_str format_summary clock format_2f
     str_exn).

(** Closes the case in which the run stops after [k] stage entries. *)
Ltac trace_raise k :=
  exists k; split; [lia|]; split;
    [cbn [logged coordination_log clock_reads firstn stage_messages stamped];
     rewrite <- ?app_assoc; reflexivity
    |cbn [logged clock_reads]; lia].

(** What the [try] block leaves in the log: all five stage entries and the
    completion entry when it returns, the first [k] stage entries when it
    raises. *)
Lemma workflow_trace (image_base64 : string)
    (user_profile : option (list (string * value))) (start_time : nat)
    (st : orchestrator) :
  match run_workflow image_base64 user_profile start_time st with
  | (Ok r, st') =>
      coordination_log st' =
        (coordination_log st
           ++ stamped clock (clock_reads st)
                (stage_messages
                   ++ [("Analysis completed with confidence: "
                          ++ format_2f (confidence_score r))%string]))%list /\
      clock_reads st' = (clock_reads st + 6)%nat /\
      agent_coordination_log r = coordination_log st' /\
      analysis_timestamp r = start_time
  | (Raise e, st') =>
      exists k : nat,
        (1 <= k <= 5)%nat /\
        coordination_log st' =
          (coordination_log st
             ++ stamped clock (clock_reads st) (firstn k stage_messages))%list /\
        clock_reads st' = (clock_reads st + k)%nat
  end.
Proof.
  unfold workflow, bindM, lift, ret, get_log. rewrite !_log_run.
  destruct (analyze_image_and_plan _ _ _) as [plan|e]; [|trace_raise 1%nat].
  destruct (_ <- Py.subscript plan _ ;; _)%py as [items|e]; [|trace_raise 1%nat].
  rewrite ?_log_run.
  destruct (_ <- Py.subscript plan _ ;; _)%py as [n|e]; [|trace_raise 2%nat].
  rewrite ?_log_run.
  destruct (_ <- Py.subscript plan _ ;; _)%py as [recs|e]; [|trace_raise 3%nat].
  rewrite ?_log_run.
  destruct (_ <- Py.subscript plan _ ;; _)%py as [meals|e]; [|trace_raise 4%nat].
  destruct (aggregate_confidence _) as [overall|e]; [|trace_raise 4%nat].
  rewrite ?_log_run.
  destruct (verify_analysis _ _ _) as [v|e]; [|trace_raise 5%nat].
  rewrite ?_log_run.
  cbn [logged coordination_log clock_reads stage_messages stamped app
       confidence_score agent_coordination_log analysis_timestamp].
  split; [|split; [lia|split; reflexivity]].
  rewrite <- !app_assoc. reflexivity.
Qed.

(** X1. A run that returns leaves exactly six entries in the log, whatever
    the log held before: the five stage entries in the order of the stages
    and the completion entry, which carries the final confidence of the
    result; each entry is stamped with its own reading of the clock, the
    result carries that same log, and its timestamp is the reading taken
    before the first entry. *)
Theorem returned_run_log (image_base64 : string)
    (user_profile : option (list (string * value))) (st st' : orchestrator)
    (r : AnalysisResult) :
  run_analysis image_base64 user_profile st = (Ok r, st') ->
  agent_coordination_log r =
    stamped clock (S (clock_reads st))
      (stage_messages
         ++ [("Analysis completed with confidence: "
                ++ format_2f (confidence_score r))%string])%list /\
  coordination_log st' = agent_coordination_log r /\
  List.length (agent_coordination_log r) = 6%nat /\
  analysis_timestamp r = clock_reads st /\
  clock_reads st' = (clock_reads st + 7)%nat.
Proof.
  rewrite analyze_food_image_run.
  pose proof (workflow_trace image_base64 user_profile (clock_reads st)
                (started st)) as T.
  destruct (workflow _ _ _ _ _ _ _ _ _ _) as [[r1|e] st1]; [|discriminate].
  intros E. injection E as -> ->.
  destruct T as (L & C & A & S). cbn [started coordination_log clock_reads app] in L, C.
  rewrite A, L. repeat split; try assumption; try reflexivity. lia.
Qed.

(** X2. A run that raises leaves in the log, whatever the log held before,
    the entries of the stages that were started (at least the first, at
    most all five, in the order of the stages) followed by the one error
    entry; no completion entry is ever logged on such a run. *)
Theorem raised_run_log (image_base64 : string)
    (user_profile : option (list (string * value))) (st st' : orchestrator)
    (e : exn) :
  run_analysis image_base64 user_profile st = (Raise e, st') ->
  exists k : nat,
    (1 <= k <= 5)%nat /\
    coordination_log st' =
      stamped clock (S (clock_reads st))
        (firstn k stage_messages
           ++ [("Error in workflow: " ++ str_exn e)%string])%list /\
    clock_reads st' = (clock_reads st + k + 2)%nat.
Proof.
  rewrite analyze_food_image_run.
  pose proof (workflow_trace image_base64 user_profile (clock_reads st)
                (started st)) as T.
  destruct (workflow _ _ _ _ _ _ _ _ _ _) as [[r1|e1] st1]; [discriminate|].
  intros E. injection E as -> <-.
  destruct T as (k & K & L & C). cbn [started coordination_log clock_reads app] in L, C.
  exists k. split; [exact K|]. cbn [logged coordination_log clock_reads].
  split; [|lia].
  rewrite stamped_app, L, C, firstn_length_le by (cbn; lia).
  cbn [stamped]. repeat f_equal.
Qed.

End Trace.

Lemma returned_run_log_witness :
  exists (r : AnalysisResult) (st' : orchestrator),
    analyze_food_image Json.loads Scenario.prose Scenario.render Scenario.summary
      Scenario.noon Scenario.two_places Scenario.describe
      "aW1hZ2U=" None Scenario.idle = (Ok r, st') /\
    agent_coordination_log r =
      stamped Scenario.noon 1
        (stage_messages
           ++ [("Analysis completed with confidence: "
                  ++ Scenario.two_places (confidence_score r))%string])%list /\
    coordination_log st' = agent_coordination_log r /\
    List.length (agent_coordination_log r) = 6%nat /\
    analysis_timestamp r = 0%nat /\
    clock_reads st' = 7%nat.
Proof.
  eexists. eexists. split.
  - vm_compute. reflexivity.
  - eapply (@returned_run_log Json.loads Scenario.prose Scenario.render
              Scenario.summary Scenario.noon Scenario.two_places
              Scenario.describe "aW1hZ2U=" None Scenario.idle).
    vm_compute. reflexivity.
Defined.

Lemma raised_run_log_witness :
  exists (st' : orchestrator) (k : nat),
    analyze_food_image Json.loads Scenario.unavailable Scenario.render
      Scenario.summary Scenario.noon Scenario.two_places Scenario.describe
      "aW1hZ2U=" None Scenario.idle
    = (Raise (ApiError "API call failed with status 503: unavailable"), st') /\
    (1 <= k <= 5)%nat /\
    coordination_log st' =
      stamped Scenario.noon 1
        (firstn k stage_messages
           ++ [("Error in workflow: "
                  ++ Scenario.describe
                       (ApiError "API call failed with status 503: unavailable"))%string])%list /\
    clock_reads st' = (0 + k + 2)%nat.
Proof.
  eexists.
  assert (R : analyze_food_image Json.loads Scenario.unavailable Scenario.render
                Scenario.summary Scenario.noon Scenario.two_places
                Scenario.describe "aW1hZ2U=" None Scenario.idle
              = (Raise (ApiError "API call failed with status 503: unavailable"),
                 {| coordination_log :=
                      ["[12:00:00] Planning Agent: Analyzing image and creating analysis strategy";
                       "[12:00:00] Error in workflow: API call failed with status 503: unavailable"];
                    clock_reads := 3 |})) by (vm_compute; reflexivity).
  destruct (@raised_run_log Json.loads Scenario.unavailable Scenario.render
              Scenario.summary Scenario.noon Scenario.two_places
              Scenario.describe "aW1hZ2U=" None Scenario.idle _ _ R)
    as (k & K & L & C).
  exists k. split; [exact R|]. auto.
Defined.


(** ** A stage that raises *)

Section Fatal.

Variable json_loads : string -> option value.
Variable call_llm : agent -> result string.
Variable py_str : value -> string.
Variable format_summary : string -> string -> Q -> list string -> string.
Variable clock : nat -> string.
Variable format_2f : Q -> string.
Variable str_exn : exn -> string.

Variable image_base64 : string.
Variable user_profile : option (list (string * value)).

Local Abbreviation run :=
  (analyze_food_image json_loads call_llm py_str format_summary clock format_2f
     str_exn image_base64 user_profile).
Local Abbreviation items_of plan :=
  (items <- Py.subscript plan "food_items" ;;
   items <- Py.iterate items ;;
   mapM (FoodItem_of py_str) items)%py.
Local Abbreviation nutrition_stage plan :=
  (items <- Py.subscript plan "food_items" ;;
   analyze_nutrition json_loads call_llm py_str items plan)%py.
Local Abbreviation health_stage plan nutrition :=
  (items <- Py.subscript plan "food_items" ;;
   generate_recommendations json_loads call_llm nutrition items user_profile)%py.
Local Abbreviation meal_stage plan nutrition :=
  (items <- Py.subscript plan "food_items" ;;
   suggest_complementary_foods json_loads call_llm nutrition items)%py.

Ltac stage_failed :=
  let e := fresh "e" in let E := fresh "E" in
  intros e E; unfold fails_after; rewrite analyze_food_image_run;
  unfold workflow, bindM, lift, get_log; rewrite ?_log_run;
  repeat (match goal with H : _ = Ok _ |- _ => rewrite H end;
          rewrite ?_log_run);
  cbn [firstn stage_messages stamped] in E;
  cbn [logged started coordination_log clock_reads app];
  rewrite E;
  cbn [fst snd logged started coordination_log clock_reads firstn
       stage_messages stamped app];
  split; reflexivity.

(** C9. Every stage is fatal.  Whichever step of the workflow raises
    first (the planning stage, the mapping of the plan to the food items,
    the nutrition, health or meal planning stage, the aggregate confidence,
    the verification), the run raises that same exception, returns no
    result, and its log holds the entries of the stages started so far
    followed by the one error entry.  Only when every step has returned
    does the run return, and then the complete result: all the values the
    stages returned, the final confidence, and the whole log. *)
Theorem error_logged_and_raised_again (st : orchestrator) :
  (forall e : exn,
     analyze_image_and_plan json_loads call_llm image_base64 = Raise e ->
     fails_after clock str_exn st 1 e (run st)) /\
  (forall plan : value,
     analyze_image_and_plan json_loads call_llm image_base64 = Ok plan ->
     (forall e : exn,
        items_of plan = Raise e -> fails_after clock str_exn st 1 e (run st)) /\
     (forall food_items : list FoodItem.t,
        items_of plan = Ok food_items ->
        (forall e : exn,
           nutrition_stage plan = Raise e ->
           fails_after clock str_exn st 2 e (run st)) /\
        (forall nutrition : NutritionData,
           nutrition_stage plan = Ok nutrition ->
           (forall e : exn,
              health_stage plan nutrition = Raise e ->
              fails_after clock str_exn st 3 e (run st)) /\
           (forall health_recommendations : list HealthRecommendation.t,
              health_stage plan nutrition = Ok health_recommendations ->
              (forall e : exn,
                 meal_stage plan nutrition = Raise e ->
                 fails_after clock str_exn st 4 e (run st)) /\
              (forall meal_suggestions : list MealSuggestion.t,
                 meal_stage plan nutrition = Ok meal_suggestions ->
                 (forall e : exn,
                    aggregate_confidence (map FoodItem.confidence food_items)
                      = Raise e ->
                    fails_after clock str_exn st 4 e (run st)) /\
                 (forall overall_confidence : Q,
                    aggregate_confidence (map FoodItem.confidence food_items)
                      = Ok overall_confidence ->
                    let preliminary_result :=
                      {| food_items := food_items;
                         nutrition := nutrition;
                         health_recommendations := health_recommendations;
                         meal_suggestions := meal_suggestions;
                         confidence_score := overall_confidence;
                         analysis_timestamp := clock_reads st;
                         agent_coordination_log :=
                           stamped clock (S (clock_reads st))
                             (firstn 4 stage_messages) |} in
                    (forall e : exn,
                       verify_analysis py_str format_summary preliminary_result
                         = Raise e ->
                       fails_after clock str_exn st 5 e (run st)) /\
                    (forall verification : Verification.t,
                       verify_analysis py_str format_summary preliminary_result
                         = Ok verification ->
                       let final_confidence :=
                         ((overall_confidence
                           + Verification.confidence verification) / 2)%Q in
                       fst (run st) =
                       Ok {| food_items := food_items;
                             nutrition := nutrition;
                             health_recommendations := health_recommendations;
                             meal_suggestions := meal_suggestions;
                             confidence_score := final_confidence;
                             analysis_timestamp := clock_reads st;
                             agent_coordination_log :=
                               stamped clock (S (clock_reads st))
                                 (stage_messages
                                    ++ [("Analysis completed with confidence: "
                                           ++ format_2f final_confidence)%string])
                          |}))))))).
Proof.
  split; [stage_failed|]. intros plan E0.
  split; [stage_failed|]. intros food_items E1.
  split; [stage_failed|]. intros nutrition E2.
  split; [stage_failed|]. intros health_recommendations E3.
  split; [stage_failed|]. intros meal_suggestions E4.
  split; [stage_failed|]. intros overall_confidence E5 preliminary_result.
  subst preliminary_result.
  split; [stage_failed|]. intros verification E6 final_confidence.
  subst final_confidence.
  rewrite analyze_food_image_run.
  unfold workflow, bindM, lift, get_log, ret. rewrite ?_log_run.
  rewrite E0, E1. rewrite ?_log_run. rewrite E2. rewrite ?_log_run.
  rewrite E3. rewrite ?_log_run. rewrite E4, E5. rewrite ?_log_run.
  cbn [logged started coordination_log clock_reads firstn stage_messages
       stamped app] in E6 |- *.
  rewrite E6. reflexivity.
Qed.

End Fatal.

Lemma error_logged_and_raised_again_witness :
  fails_after Scenario.noon Scenario.describe Scenario.idle 2
    (ApiError "API call failed with status 503: unavailable")
    (analyze_food_image Json.loads Scenario.nutrition_down Scenario.render
       Scenario.summary Scenario.noon Scenario.two_places Scenario.describe
       "aW1hZ2U=" None Scenario.idle) /\
  fails_after Scenario.noon Scenario.describe Scenario.idle 5 TypeError
    (analyze_food_image Json.loads Scenario.worded_nutrition Scenario.render
       Scenario.summary Scenario.noon Scenario.two_places Scenario.describe
       "aW1hZ2U=" None Scenario.idle).
Proof.
  split.
  - destruct (@error_logged_and_raised_again Json.loads Scenario.nutrition_down
                Scenario.render Scenario.summary Scenario.noon
                Scenario.two_places Scenario.describe "aW1hZ2U=" None
                Scenario.idle) as [_ H].
    edestruct H as [_ H1]; [vm_compute; reflexivity|].
    edestruct H1 as [H2 _]; [vm_compute; reflexivity|].
    apply H2. vm_compute. reflexivity.
  - destruct (@error_logged_and_raised_again Json.loads Scenario.worded_nutrition
                Scenario.render Scenario.summary Scenario.noon
                Scenario.two_places Scenario.describe "aW1hZ2U=" None
                Scenario.idle) as [_ H].
    edestruct H as [_ H1]; [vm_compute; reflexivity|].
    edestruct H1 as [_ H2]; [vm_compute; reflexivity|].
    edestruct H2 as [_ H3]; [vm_compute; reflexivity|].
    edestruct H3 as [_ H4]; [vm_compute; reflexivity|].
    edestruct H4 as [_ H5]; [vm_compute; reflexivity|].
    edestruct H5 as [H6 _]; [vm_compute; reflexivity|].
    apply H6. vm_compute. reflexivity.
Defined.

(** ** What the two checks return *)

Lemma number_raises (v : value) (e : exn) : Py.number v = Raise e -> e = TypeError.
Proof. destruct v; simpl; congruence. Qed.

Section Checks.

Variable py_str : value -> string.
Variable format_summary : string -> string -> Q -> list string -> string.

(** The issue list of the nutrition check, from the numbers it reads. *)
Local Abbreviation nutrition_issues n p c f cal so :=
  (append_if (Py.Qltb 2000 so) very_high_sodium
     (append_if (Py.Qltb 50 (Qabs (cal - (p * 4 + c * 4 + f * 9))))
        (mismatch_prefix ++ py_str (calories n) ++ " vs "
           ++ py_str (VNum (p * 4 + c * 4 + f * 9)))
        (append_if (Py.Qltb p 0 || Py.Qltb c 0 || Py.Qltb f 0)
           negative_macros []))).

Lemma verify_nutrition_reads (n : NutritionData) (p c f cal so : Q) :
  reads_numbers n p c f cal so ->
  _verify_nutrition_values py_str n =
  Ok {| Check.confidence :=
          if Py.is_empty (nutrition_issues n p c f cal so) then 0.9%Q else 0.6%Q;
        Check.status :=
          if Py.is_empty (nutrition_issues n p c f cal so) then "PASS"
          else "WARNINGS";
        Check.issues := nutrition_issues n p c f cal so |}.
Proof.
  intros (Ep & Ec & Ef & Ecal & Eso).
  unfold _verify_nutrition_values, or_else, lt, gt.
  rewrite Ep, Ec, Ef, Ecal, Eso. cbn [bind].
  destruct (Py.Qltb p 0); [reflexivity|].
  cbn [bind orb]. destruct (Py.Qltb c 0); reflexivity.
Qed.

(** The check returns only on a record whose five inspected fields are
    numbers, and raises nothing but [TypeError]. *)
Lemma verify_nutrition_cases (n : NutritionData) :
  (exists p c f cal so, reads_numbers n p c f cal so) \/
  (_verify_nutrition_values py_str n = Raise TypeError /\
   ~ exists p c f cal so, reads_numbers n p c f cal so).
Proof.
  unfold reads_numbers.
  destruct (Py.number (protein n)) as [p|e] eqn:Ep.
  2:{ right. pose proof (number_raises _ Ep); subst e. split.
      - unfold _verify_nutrition_values, or_else, lt. rewrite Ep. reflexivity.
      - intros (? & ? & ? & ? & ? & D & _). discriminate D. }
  destruct (Py.number (carbohydrates n)) as [c|e] eqn:Ec.
  2:{ right. pose proof (number_raises _ Ec); subst e. split.
      - unfold _verify_nutrition_values, or_else, lt. rewrite Ep, Ec. cbn [bind].
        destruct (Py.Qltb p 0); reflexivity.
      - intros (? & ? & ? & ? & ? & _ & D & _). discriminate D. }
  destruct (Py.number (fats n)) as [f|e] eqn:Ef.
  2:{ right. pose proof (number_raises _ Ef); subst e. split.
      - unfold _verify_nutrition_values, or_else, lt. rewrite Ep, Ec, Ef.
        cbn [bind]. destruct (Py.Qltb p 0); cbn [bind]; [reflexivity|].
        destruct (Py.Qltb c 0); reflexivity.
      - intros (? & ? & ? & ? & ? & _ & _ & D & _). discriminate D. }
  destruct (Py.number (calories n)) as [cal|e] eqn:Ecal.
  2:{ right. pose proof (number_raises _ Ecal); subst e. split.
      - unfold _verify_nutrition_values, or_else, lt. rewrite Ep, Ec, Ef, Ecal.
        cbn [bind]. destruct (Py.Qltb p 0); cbn [bind]; [reflexivity|].
        destruct (Py.Qltb c 0); reflexivity.
      - intros (? & ? & ? & ? & ? & _ & _ & _ & D & _). discriminate D. }
  destruct (Py.number (sodium n)) as [so|e] eqn:Eso.
  2:{ right. pose proof (number_raises _ Eso); subst e. split.
      - unfold _verify_nutrition_values, or_else, lt, gt.
        rewrite Ep, Ec, Ef, Ecal, Eso.
        cbn [bind]. destruct (Py.Qltb p 0); cbn [bind]; [reflexivity|].
        destruct (Py.Qltb c 0); reflexivity.
      - intros (? & ? & ? & ? & ? & _ & _ & _ & _ & D). discriminate D. }
  left. exists p, c, f, cal, so. auto.
Qed.

End Checks.

(** ** The scan of the recommendation messages *)

Lemma any_mentions_app_true (word : string) (pre rest : list HealthRecommendation.t) :
  any_mentions word pre = Ok true -> any_mentions word (pre ++ rest)%list = Ok true.
Proof.
  induction pre as [|r pre IH]; simpl; [discriminate|].
  destruct (Py.lower (HealthRecommendation.message r)) as [m|e]; simpl;
    [|discriminate].
  destruct (PyStr.contains word m); auto.
Qed.

Lemma any_mentions_app_false (word : string) (pre rest : list HealthRecommendation.t) :
  any_mentions word pre = Ok false ->
  any_mentions word (pre ++ rest)%list = any_mentions word rest.
Proof.
  induction pre as [|r pre IH]; simpl; [reflexivity|].
  destruct (Py.lower (HealthRecommendation.message r)) as [m|e]; simpl;
    [|discriminate].
  destruct (PyStr.contains word m); [discriminate|auto].
Qed.

Lemma any_mentions_no_text (word : string) (bad : HealthRecommendation.t)
    (post : list HealthRecommendation.t) :
  ~ has_text bad -> any_mentions word (bad :: post) = Raise AttributeError.
Proof.
  intros N. simpl. destruct (HealthRecommendation.message bad) eqn:E;
    try reflexivity.
  exfalso. apply N. eexists. exact E.
Qed.

(** X4. The scan of the messages stops at the first one that mentions the
    word.  With a message that is not a text in the list, after messages
    that are: when the messages before it mention both sodium and fiber,
    the relevance check never reaches it and passes with status PASS and
    confidence 0.8, whatever the sodium and the fiber; when they do not,
    the check raises [AttributeError]. *)
Theorem relevance_scan_stops_early (pre post : list HealthRecommendation.t)
    (bad : HealthRecommendation.t) (n : NutritionData) (so fb : Q) :
  Forall has_text pre ->
  ~ has_text bad ->
  Py.number (sodium n) = Ok so ->
  Py.number (fiber n) = Ok fb ->
  (mentioned "sodium" pre /\ mentioned "fiber" pre ->
   _verify_recommendations (pre ++ bad :: post)%list n =
     Ok {| Check.confidence := 0.8%Q; Check.status := "PASS";
           Check.issues := [] |}) /\
  (~ (mentioned "sodium" pre /\ mentioned "fiber" pre) ->
   _verify_recommendations (pre ++ bad :: post)%list n = Raise AttributeError).
Proof.
  intros T N Es Ef.
  destruct (any_mentions_text "sodium" T) as (b1 & E1 & S1).
  destruct (any_mentions_text "fiber" T) as (b2 & E2 & S2).
  fold (mentioned "sodium" pre) in S1. fold (mentioned "fiber" pre) in S2.
  assert (R : _verify_recommendations (pre ++ bad :: post)%list n =
              if b1 && b2
              then Ok {| Check.confidence := 0.8%Q; Check.status := "PASS";
                         Check.issues := [] |}
              else Raise AttributeError).
  { unfold _verify_recommendations, gt, lt. rewrite Es, Ef. cbn [bind].
    destruct b1.
    - rewrite (any_mentions_app_true _ _ _ E1). cbn [bind].
      destruct b2.
      + rewrite (any_mentions_app_true _ _ _ E2). cbn [bind andb negb].
        rewrite !andb_false_r.
        destruct pre; reflexivity.
      + rewrite (any_mentions_app_false _ _ _ E2), (any_mentions_no_text _ _ N).
        reflexivity.
    - rewrite (any_mentions_app_false _ _ _ E1), (any_mentions_no_text _ _ N).
      reflexivity. }
  rewrite R. split.
  - intros [M1 M2]. apply S1 in M1. apply S2 in M2. subst. reflexivity.
  - intros NM. destruct b1, b2; try reflexivity.
    exfalso. apply NM. split; [apply S1|apply S2]; reflexivity.
Qed.

Lemma relevance_scan_stops_early_witness :
  _verify_recommendations
    ([Scenario.less_salt_more_fiber] ++ Scenario.numbered_message :: [])%list
    Scenario.salty
  = Ok {| Check.confidence := 0.8%Q; Check.status := "PASS"; Check.issues := [] |}.
Proof.
  apply (@relevance_scan_stops_early [Scenario.less_salt_more_fiber] []
           Scenario.numbered_message Scenario.salty 1500 3).
  - repeat constructor. eexists. reflexivity.
  - intros [m D]. discriminate D.
  - reflexivity.
  - reflexivity.
  - split.
    + exists Scenario.less_salt_more_fiber, "Less Sodium, more FIBER.".
      split; [left; reflexivity|]. split; [reflexivity|].
      exists "Less ", "Sodium", ", more FIBER.". split; reflexivity.
    + exists Scenario.less_salt_more_fiber, "Less Sodium, more FIBER.".
      split; [left; reflexivity|]. split; [reflexivity|].
      exists "Less Sodium, more ", "FIBER", ".". split; reflexivity.
Defined.

(** ** Status, confidence and issues of a check *)

(** A check whose status and confidence follow from its issue list, with
    the two confidences the check can give. *)
Lemma verify_recommendations_Ok_inv (recs : list HealthRecommendation.t)
    (n : NutritionData) (chk : Check.t) :
  _verify_recommendations recs n = Ok chk ->
  exists (so fb : Q) (b1 b2 : bool),
    let issues :=
      append_if (Py.Qltb fb 5 && negb b2) fiber_unaddressed
        (append_if (Py.Qltb 800 so && negb b1) sodium_unaddressed
           (append_if (Py.is_empty recs) no_recommendations [])) in
    Py.number (sodium n) = Ok so /\
    Py.number (fiber n) = Ok fb /\
    any_mentions "sodium" recs = Ok b1 /\
    any_mentions "fiber" recs = Ok b2 /\
    chk = {| Check.confidence := if Py.is_empty issues then 0.8%Q else 0.5%Q;
             Check.status := if Py.is_empty issues then "PASS" else "WARNINGS";
             Check.issues := issues |}.
Proof.
  unfold _verify_recommendations, gt, lt.
  destruct (Py.number (sodium n)) as [so|]; cbn [bind]; [|discriminate].
  destruct (Py.number (fiber n)) as [fb|]; cbn [bind]; [|discriminate].
  destruct (any_mentions "sodium" recs) as [b1|]; cbn [bind]; [|discriminate].
  destruct (any_mentions "fiber" recs) as [b2|]; cbn [bind]; [|discriminate].
  intros E. injection E as <-. exists so, fb, b1, b2. cbv zeta. auto.
Qed.

Lemma three_appends (c1 c2 c3 : bool) (x1 x2 x3 : string) :
  (List.length (append_if c3 x3 (append_if c2 x2 (append_if c1 x1 []))) <= 3)%nat.
Proof. destruct c1, c2, c3; simpl; lia. Qed.

Section Outcome.

Variable py_str : value -> string.
Variable format_summary : string -> string -> Q -> list string -> string.

Lemma fields_agree_intro (issues : list string) (high low : Q) :
  (List.length issues <= 3)%nat ->
  fields_agree
    {| Check.confidence := if Py.is_empty issues then high else low;
       Check.status := if Py.is_empty issues then "PASS" else "WARNINGS";
       Check.issues := issues |} high low.
Proof.
  intros L. unfold fields_agree.
  cbn [Check.issues Check.status Check.confidence].
  destruct issues as [|i issues]; cbn [Py.is_empty].
  - split; [auto|]. split; [intros N; congruence|]. split; [auto|simpl; lia].
  - split; [discriminate|]. split; [auto|]. split; [discriminate|exact L].
Qed.

Lemma nutrition_fields_agree (n : NutritionData) (chk : Check.t) :
  _verify_nutrition_values py_str n = Ok chk -> fields_agree chk 0.9 0.6.
Proof.
  intros E. destruct (verify_nutrition_cases py_str n)
    as [(p & c & f & cal & so & R)|[R _]]; [|congruence].
  rewrite (verify_nutrition_reads py_str R) in E. injection E as <-.
  apply fields_agree_intro, three_appends.
Qed.

Lemma relevance_fields_agree (recs : list HealthRecommendation.t)
    (n : NutritionData) (chk : Check.t) :
  _verify_recommendations recs n = Ok chk -> fields_agree chk 0.8 0.5.
Proof.
  intros E. apply verify_recommendations_Ok_inv in E.
  destruct E as (so & fb & b1 & b2 & _ & _ & _ & _ & ->).
  apply fields_agree_intro, three_appends.
Qed.

(** X5. Whenever one of the two checks returns, its status, its confidence
    and its issue list agree: the status is PASS and the confidence the
    high one (0.9 for the nutrition check, 0.8 for the relevance check)
    exactly when no issue is listed, they are WARNINGS and the low one (0.6,
    0.5) otherwise, and no check lists more than three issues. *)
Theorem check_fields_agree (n : NutritionData)
    (recs : list HealthRecommendation.t) :
  (forall chk : Check.t,
     _verify_nutrition_values py_str n = Ok chk -> fields_agree chk 0.9 0.6) /\
  (forall chk : Check.t,
     _verify_recommendations recs n = Ok chk -> fields_agree chk 0.8 0.5).
Proof.
  split; intros chk E.
  - exact (nutrition_fields_agree _ E).
  - exact (relevance_fields_agree _ _ E).
Qed.

Lemma verify_analysis_Ok_inv (r : AnalysisResult) (v : Verification.t) :
  verify_analysis py_str format_summary r = Ok v ->
  exists nc rc : Check.t,
    _verify_nutrition_values py_str (nutrition r) = Ok nc /\
    _verify_recommendations (health_recommendations r) (nutrition r) = Ok rc /\
    Verification.issues v = (Check.issues nc ++ Check.issues rc)%list /\
    (Verification.confidence v ==
       (Check.confidence nc + Check.confidence rc + confidence_score r) / 3)%Q /\
    Verification.verified v = Py.Qltb 0.7 (Verification.confidence v) /\
    Verification.recommendations_for_improvement v = _suggest_improvements r.
Proof.
  unfold verify_analysis.
  destruct (_verify_nutrition_values py_str (nutrition r)) as [nc|];
    cbn [bind]; [|discriminate].
  destruct (_verify_recommendations _ _) as [rc|]; cbn [bind]; [|discriminate].
  intros E. injection E as <-. exists nc, rc.
  cbn [Verification.issues Verification.confidence Verification.verified
       Verification.recommendations_for_improvement].
  repeat split; try reflexivity.
  unfold Py.sum, Py.len. simpl. field.
Qed.

End Outcome.

(** ** Bounds on the confidences *)

Lemma len_cons {A : Type} (x : A) (xs : list A) : (Py.len (x :: xs) == Py.len xs + 1)%Q.
Proof.
  unfold Py.len. cbn [List.length]. rewrite Nat2Z.inj_succ, <- Z.add_1_r.
  rewrite inject_Z_plus. reflexivity.
Qed.

Lemma len_nonneg {A : Type} (xs : list A) : (0 <= Py.len xs)%Q.
Proof.
  unfold Py.len. change 0%Q with (inject_Z 0). rewrite <- Zle_Qle. lia.
Qed.

Lemma sum_between (qs : list Q) :
  Forall (fun q => 0 <= q <= 1)%Q qs ->
  (0 <= fold_right Qplus 0 qs <= Py.len qs)%Q.
Proof.
  induction 1 as [|q qs [L U] _ [IL IU]].
  - simpl. unfold Py.len. simpl. split; apply Qle_refl.
  - cbn [fold_right]. rewrite len_cons. split; lra.
Qed.

Lemma unit_confidences_numbers (scores : list value) :
  Forall unit_confidence scores ->
  exists qs : list Q, scores = map VNum qs /\ Forall (fun q => 0 <= q <= 1)%Q qs.
Proof.
  induction 1 as [|v vs (q & -> & B) _ (qs & -> & F)].
  - exists []. auto.
  - exists (q :: qs). auto.
Qed.

Lemma aggregate_confidence_bounds_aux (scores : list value) :
  Forall unit_confidence scores ->
  exists v : Q, aggregate_confidence scores = Ok v /\ (0 <= v <= 1)%Q.
Proof.
  intros U. destruct (unit_confidences_numbers U) as (qs & -> & F).
  unfold aggregate_confidence. destruct qs as [|q qs].
  - exists 0.5%Q. split; [reflexivity|]. split; discriminate.
  - change (VNum q :: map VNum qs) with (map VNum (q :: qs)).
    cbn [map Py.is_empty]. change (VNum q :: map VNum qs) with (map VNum (q :: qs)).
    rewrite mapM_number_VNum. cbn [bind]. eexists. split; [reflexivity|].
    destruct (sum_between F) as [L H]. rewrite sum_fold_right.
    assert (P : (0 < Py.len (q :: qs))%Q).
    { rewrite len_cons. pose proof (len_nonneg qs). lra. }
    split.
    + apply Qle_shift_div_l; [exact P|]. lra.
    + apply Qle_shift_div_r; [exact P|]. lra.
Qed.

(** X7. When every confidence of the list is a number between 0 and 1, the
    aggregate confidence is returned and lies between 0 and 1 (the empty
    list included, with 0.5); no clamp is needed. *)
Theorem aggregate_confidence_bounds (scores : list value) :
  Forall unit_confidence scores ->
  exists v : Q, aggregate_confidence scores = Ok v /\ (0 <= v <= 1)%Q.
Proof.
  intros U. destruct (aggregate_confidence_bounds_aux U) as (v & E & L & H).
  exists v. split; [exact E|]. split; [exact L|exact H].
Qed.

Lemma aggregate_confidence_bounds_witness :
  exists v : Q,
    aggregate_confidence (map FoodItem.confidence Scenario.rice_and_egg) = Ok v /\
    (0 <= v <= 1)%Q.
Proof.
  apply aggregate_confidence_bounds.
  repeat constructor; eexists; (split; [reflexivity|split; discriminate]).
Defined.

Lemma check_confidence_cases (chk : Check.t) (high low : Q) :
  fields_agree chk high low ->
  Check.confidence chk = high \/ Check.confidence chk = low.
Proof.
  intros (A0 & A1 & _). destruct (Check.issues chk) as [|i issues] eqn:E.
  - left. apply A0. reflexivity.
  - right. apply A1. discriminate.
Qed.

Section Bounds.

Variable json_loads : string -> option value.
Variable call_llm : agent -> result string.
Variable py_str : value -> string.
Variable format_summary : string -> string -> Q -> list string -> string.
Variable clock : nat -> string.
Variable format_2f : Q -> string.
Variable str_exn : exn -> string.

(** X9. On every run that returns a result whose food items carry
    confidences between 0 and 1, the final confidence score lies between
    11/60 and 19/20: it stays inside [0, 1] without any clamp, and it never
    reaches 1. *)
Theorem final_confidence_bounds (image_base64 : string)
    (user_profile : option (list (string * value))) (st st' : orchestrator)
    (r : AnalysisResult) :
  analyze_food_image json_loads call_llm py_str format_summary clock format_2f
    str_exn image_base64 user_profile st = (Ok r, st') ->
  Forall unit_confidence (map FoodItem.confidence (food_items r)) ->
  ((11 # 60) <= confidence_score r <= (19 # 20))%Q.
Proof.
  rewrite analyze_food_image_run.
  destruct (workflow _ _ _ _ _ _ _ _ _ _) as [[r1|e] st1] eqn:W; [|discriminate].
  intros E U. injection E as -> ->.
  apply workflow_Ok_inv in W.
  destruct W as (pre & log_copy & ver & A & V & C & _).
  destruct (aggregate_confidence_bounds_aux U) as (v & A' & B).
  assert (v = pre) by congruence. subst v.
  apply verify_analysis_Ok_inv in V.
  destruct V as (nc & rc & En & Er & _ & Cv & _).
  cbn [confidence_score nutrition health_recommendations] in *.
  rewrite C, Cv.
  assert (D : forall a b : Q,
             ((pre + (a + b + pre) / 3) / 2
              == (pre + (a + b + pre) * (1 # 3)) * (1 # 2))%Q)
    by (intros a b; field).
  rewrite D.
  destruct (check_confidence_cases (nutrition_fields_agree _ _ En)) as [-> | ->];
    destruct (check_confidence_cases (relevance_fields_agree _ _ Er)) as [-> | ->];
    lra.
Qed.

End Bounds.

Lemma final_confidence_bounds_witness :
  exists (r : AnalysisResult) (st' : orchestrator),
    analyze_food_image Json.loads Scenario.prose Scenario.render Scenario.summary
      Scenario.noon Scenario.two_places Scenario.describe
      "aW1hZ2U=" None Scenario.idle = (Ok r, st') /\
    ((11 # 60) <= confidence_score r <= (19 # 20))%Q.
Proof.
  eexists. eexists. split.
  - vm_compute. reflexivity.
  - eapply (@final_confidence_bounds Json.loads Scenario.prose Scenario.render
              Scenario.summary Scenario.noon Scenario.two_places
              Scenario.describe "aW1hZ2U=" None Scenario.idle).
    + vm_compute. reflexivity.
    + repeat constructor. eexists. split; [reflexivity|split; discriminate].
Defined.

(** ** Replies with a delimiter missing or misplaced *)

Lemma find_bounds (c : ascii) (s : string) :
  (-1 <= PyStr.find c s < Z.of_nat (String.length s))%Z.
Proof.
  induction s as [|a s IH]; cbn [PyStr.find String.length].
  - lia.
  - destruct (Ascii.eqb a c); [lia|].
    destruct (PyStr.find c s <? 0)%Z eqn:E; [lia|].
    apply Z.ltb_ge in E. lia.
Qed.

Lemma rfind_bounds (c : ascii) (s : string) :
  (-1 <= PyStr.rfind c s < Z.of_nat (String.length s))%Z.
Proof.
  induction s as [|a s IH]; cbn [PyStr.rfind String.length].
  - lia.
  - destruct (0 <=? PyStr.rfind c s)%Z eqn:E.
    + lia.
    + destruct (Ascii.eqb a c); lia.
Qed.

(** The last index is the last position only when the text ends with the
    character. *)
Lemma rfind_at_end (c : ascii) (s : string) :
  PyStr.rfind c s = (Z.of_nat (String.length s) - 1)%Z ->
  s <> EmptyString ->
  exists before : string, s = before ++ String c EmptyString.
Proof.
  induction s as [|a s IH]; [congruence|]. intros E _.
  cbn [PyStr.rfind String.length] in E.
  pose proof (rfind_bounds c s) as B.
  destruct (0 <=? PyStr.rfind c s)%Z eqn:P.
  - apply Z.leb_le in P. destruct s as [|b s]; [cbn [PyStr.rfind] in P; lia|].
    destruct IH as [before ->]; [lia|discriminate|].
    exists (String a before). reflexivity.
  - destruct (Ascii.eqb a c) eqn:A; [|lia].
    apply Ascii.eqb_eq in A. subst a.
    destruct s as [|b s]; [|cbn [String.length] in E; lia].
    exists EmptyString. reflexivity.
Qed.

Lemma slice_to_zero (s : string) (start : Z) : PyStr.slice s start 0 = EmptyString.
Proof.
  unfold PyStr.slice. set (len := Z.of_nat (String.length s)).
  assert (A : (0 <= PyStr.clip len start)%Z).
  { unfold PyStr.clip. destruct (start <? 0)%Z eqn:E; [lia|].
    apply Z.ltb_ge in E. subst len. lia. }
  assert (B : PyStr.clip len 0 = 0%Z).
  { unfold PyStr.clip. change (0 <? 0)%Z with false. cbv iota. subst len. lia. }
  rewrite B. destruct (PyStr.clip len start <? 0)%Z eqn:E; [|reflexivity].
  apply Z.ltb_lt in E. lia.
Qed.

Lemma slice_empty_range (s : string) (start stop : Z) :
  (0 <= stop <= start)%Z -> PyStr.slice s start stop = EmptyString.
Proof.
  intros [A B]. unfold PyStr.slice. set (len := Z.of_nat (String.length s)).
  assert (L : (0 <= len)%Z) by (subst len; lia).
  unfold PyStr.clip.
  destruct (start <? 0)%Z eqn:E1; [apply Z.ltb_lt in E1; lia|].
  destruct (stop <? 0)%Z eqn:E2; [apply Z.ltb_lt in E2; lia|].
  destruct (Z.min start len <? Z.min stop len)%Z eqn:E3; [|reflexivity].
  apply Z.ltb_lt in E3. lia.
Qed.

(** Without the opening delimiter the slice starts at the last character:
    it is empty, or the closing delimiter alone. *)
Lemma slice_from_last (c : ascii) (s : string) :
  PyStr.slice s (-1) (PyStr.rfind c s + 1) = EmptyString \/
  PyStr.slice s (-1) (PyStr.rfind c s + 1) = String c EmptyString.
Proof.
  pose proof (rfind_bounds c s) as B.
  destruct s as [|a s'] eqn:S; [left; reflexivity|]. rewrite <- S in *.
  assert (N : s <> EmptyString) by (rewrite S; discriminate).
  destruct (Z.eq_dec (PyStr.rfind c s) (Z.of_nat (String.length s) - 1)) as [E|E].
  - right. destruct (@rfind_at_end c s E N) as [before H].
    rewrite E. clear E B N S. subst s. rewrite append_length.
    cbn [String.length].
    replace (Z.of_nat (String.length before + 1) - 1 + 1)%Z
      with (Z.of_nat (String.length before) + Z.of_nat 1)%Z by lia.
    rewrite <- (slice_middle before (String c EmptyString) EmptyString) at 2.
    cbn [append String.length].
    unfold PyStr.slice. rewrite append_length. cbn [String.length].
    replace (PyStr.clip (Z.of_nat (String.length before + 1)) (-1))
      with (PyStr.clip (Z.of_nat (String.length before + 1))
              (Z.of_nat (String.length before))); [reflexivity|].
    unfold PyStr.clip. change (-1 <? 0)%Z with true. cbv iota.
    destruct (Z.of_nat (String.length before) <? 0)%Z eqn:E1;
      [apply Z.ltb_lt in E1; lia|lia].
  - left. unfold PyStr.slice, PyStr.clip. change (-1 <? 0)%Z with true. cbv iota.
    set (len := Z.of_nat (String.length s)) in *.
    assert (L : (1 <= len)%Z).
    { subst len. rewrite S. cbn [String.length]. lia. }
    destruct (PyStr.rfind c s + 1 <? 0)%Z eqn:E1; [apply Z.ltb_lt in E1; lia|].
    destruct (Z.max (-1 + len) 0 <? Z.min (PyStr.rfind c s + 1) len)%Z eqn:E2;
      [|reflexivity].
    apply Z.ltb_lt in E2. lia.
Qed.

Section Delimiters.

Variable json_loads : string -> option value.

Hypothesis empty_rejected : json_loads EmptyString = None.

Lemma extract_json_misplaced (opening closing : ascii) (response : string) :
  json_loads (String closing EmptyString) = None ->
  free_of opening response \/ free_of closing response \/
  (PyStr.rfind closing response < PyStr.find opening response)%Z ->
  extract_json json_loads opening closing response = None.
Proof.
  intros C [Fo|[Fc|L]]; unfold extract_json.
  - rewrite (find_free _ _ Fo).
    destruct (slice_from_last closing response) as [-> | ->]; assumption.
  - rewrite (rfind_free _ _ Fc). change (-1 + 1)%Z with 0%Z.
    rewrite slice_to_zero. exact empty_rejected.
  - pose proof (find_bounds opening response).
    pose proof (rfind_bounds closing response).
    rewrite slice_empty_range by lia. exact empty_rejected.
Qed.

(** X10. A reply in which a delimiter is missing or misplaced makes the
    stage fall back, given that the decoder rejects the empty text and a
    closing delimiter on its own: the planning and nutrition stages when
    the reply has no opening brace, or no closing brace, or its last
    closing brace before its first opening brace; the health and meal
    planning stages likewise with brackets. *)
Theorem misplaced_delimiters_fall_back (response : string) :
  json_loads "}" = None ->
  json_loads "]" = None ->
  (free_of "{" response \/ free_of "}" response \/
   (PyStr.rfind "}" response < PyStr.find "{" response)%Z ->
   parse_plan json_loads response = (fallback_plan, true) /\
   parse_nutrition json_loads response = Ok (fallback_nutrition, true)) /\
  (free_of "[" response \/ free_of "]" response \/
   (PyStr.rfind "]" response < PyStr.find "[" response)%Z ->
   parse_recommendations json_loads response
     = Ok (fallback_recommendations, true) /\
   parse_suggestions json_loads response = Ok (fallback_suggestions, true)).
Proof.
  intros B K. split; intros H.
  - pose proof (@extract_json_misplaced "{" "}" response B H) as E.
    unfold parse_plan, parse_nutrition. rewrite E. auto.
  - pose proof (@extract_json_misplaced "[" "]" response K H) as E.
    unfold parse_recommendations, parse_suggestions. rewrite E. auto.
Qed.

End Delimiters.

Lemma misplaced_delimiters_fall_back_witness :
  (parse_plan Json.loads "} First the answer, then the opening {"
     = (fallback_plan, true) /\
   parse_nutrition Json.loads "} First the answer, then the opening {"
     = Ok (fallback_nutrition, true)) /\
  (parse_recommendations Json.loads "A list without its end: [1, 2"
     = Ok (fallback_recommendations, true) /\
   parse_suggestions Json.loads "A list without its end: [1, 2"
     = Ok (fallback_suggestions, true)).
Proof.
  split.
  - apply (@misplaced_delimiters_fall_back Json.loads eq_refl
             "} First the answer, then the opening {" eq_refl eq_refl).
    right. right. vm_compute. reflexivity.
  - apply (@misplaced_delimiters_fall_back Json.loads eq_refl
             "A list without its end: [1, 2" eq_refl eq_refl).
    right. left. free_of_text.
Defined.

(** ** Records from decoded objects *)

Lemma lookup_in (key : string) (members : list (string * value)) :
  (exists x, Py.lookup key members = Some x) <-> In key (map fst members).
Proof.
  induction members as [|[k v] members IH]; cbn [Py.lookup map fst In].
  - split; [intros [x D]; discriminate D|intros []].
  - destruct (String.eqb k key) eqn:E.
    + apply String.eqb_eq in E. split; [auto|eauto].
    + apply String.eqb_neq in E. rewrite IH. split; [auto|].
      intros [D|H]; [congruence|exact H].
Qed.

(** The constructor accepts the members exactly when their keys are the
    field names, in any order. *)
Lemma accepts_iff (fields : list string) (members : list (string * value)) :
  Py.accepts fields members = true <->
  (forall key, In key (map fst members) <-> In key fields).
Proof.
  unfold Py.accepts. rewrite andb_true_iff, !forallb_forall. split.
  - intros [A B] key. split.
    + intros H. apply in_map_iff in H. destruct H as ([k v] & <- & H).
      specialize (A _ H). apply existsb_exists in A.
      destruct A as (f & F & E). apply String.eqb_eq in E. cbn [fst] in *.
      subst. exact F.
    + intros H. specialize (B _ H). apply lookup_in.
      destruct (Py.lookup key members) as [x|]; [eauto|discriminate].
  - intros H. split.
    + intros [k v] I. apply existsb_exists. exists k. split.
      * apply H. apply in_map_iff. exists (k, v). auto.
      * apply String.eqb_refl.
    + intros f F. apply H, lookup_in in F. destruct F as [x ->]. reflexivity.
Qed.

Lemma field_lookup (key : string) (members : list (string * value)) :
  In key (map fst members) ->
  Py.lookup key members = Some (Py.field key members).
Proof.
  intros H. apply lookup_in in H. destruct H as [x E].
  unfold Py.field. rewrite E. reflexivity.
Qed.

(** X11. The nutrition record and its dictionary round-trip: the
    constructor rebuilds a record from the dictionary [asdict] makes of it;
    a value it accepts is a dictionary whose keys are exactly the eleven
    field names, in any order, and the record holds under each name what the
    dictionary does; a dictionary with another set of keys raises
    [TypeError]. *)
Theorem NutritionData_round_trip (n : NutritionData) (v : value) :
  NutritionData_new (VDict (NutritionData_asdict n)) = Ok n /\
  (NutritionData_new v = Ok n ->
   exists members : list (string * value),
     v = VDict members /\
     (forall key, In key (map fst members) <-> In key NutritionData_fields) /\
     (forall key, In key NutritionData_fields ->
        Py.lookup key members = Py.lookup key (NutritionData_asdict n))) /\
  (forall members : list (string * value),
     v = VDict members ->
     ~ (forall key, In key (map fst members) <-> In key NutritionData_fields) ->
     NutritionData_new v = Raise TypeError).
Proof.
  split; [|split].
  - destruct n. reflexivity.
  - unfold NutritionData_new. destruct v as [| | | | |members]; try discriminate.
    cbn [Py.kwargs bind].
    destruct (Py.accepts NutritionData_fields members) eqn:A; [|discriminate].
    intros E. injection E as <-. exists members. split; [reflexivity|].
    pose proof (proj1 (accepts_iff _ _) A) as K. split; [exact K|].
    intros key H. rewrite (field_lookup _ _ (proj2 (K key) H)).
    cbn [NutritionData_fields In] in H.
    repeat (destruct H as [<-|H]; [reflexivity|]). destruct H.
  - intros members -> N. unfold NutritionData_new. cbn [Py.kwargs bind].
    destruct (Py.accepts NutritionData_fields members) eqn:A; [|reflexivity].
    exfalso. apply N. apply accepts_iff. exact A.
Qed.

(** ** Lists of records *)

Lemma mapM_Ok_iff {A B : Type} (f : A -> result B) (xs : list A) (ys : list B) :
  mapM f xs = Ok ys <-> Forall2 (fun x y => f x = Ok y) xs ys.
Proof.
  revert ys. induction xs as [|x xs IH]; intros ys; cbn [mapM].
  - split.
    + intros E. injection E as <-. constructor.
    + intros F. inversion F. reflexivity.
  - split.
    + destruct (f x) as [y|e] eqn:E; cbn [bind]; [|discriminate].
      destruct (mapM f xs) as [ys'|e]; cbn [bind]; [|discriminate].
      intros H. injection H as <-. constructor; [exact E|]. apply IH. reflexivity.
    + intros F. inversion F as [|x' y xs' ys' E T]; subst.
      rewrite E. cbn [bind]. rewrite (proj2 (IH _) T). reflexivity.
Qed.

Lemma mapM_Exists_raise {A B : Type} (f : A -> result B) (xs : list A) :
  Exists (fun x => exists e, f x = Raise e) xs -> exists e, mapM f xs = Raise e.
Proof.
  induction 1 as [x xs [e E]|x xs _ [e IH]]; cbn [mapM].
  - rewrite E. cbn [bind]. eauto.
  - destruct (f x) as [y|e']; cbn [bind]; [|eauto]. rewrite IH. cbn [bind]. eauto.
Qed.

Section Lists.

Variable json_loads : string -> option value.

(** X12. A reply whose payload decodes to a list is taken as a whole or not
    at all.  When the constructor accepts every element, the health stage
    returns one recommendation per element, in the order of the list, and
    does not fall back (an empty list gives an empty list); when it rejects
    one element, the stage drops all of them and returns its single
    fallback recommendation.  The meal planning stage does the same with
    its suggestions. *)
Theorem list_reply_all_or_nothing (response : string) (items : list value) :
  extract_json json_loads "[" "]" response = Some (VList items) ->
  (forall recs : list HealthRecommendation.t,
     Forall2 (fun item rec => HealthRecommendation.new item = Ok rec) items recs ->
     parse_recommendations json_loads response = Ok (recs, false) /\
     List.length recs = List.length items) /\
  (Exists (fun item => exists e, HealthRecommendation.new item = Raise e) items ->
   parse_recommendations json_loads response
     = Ok (fallback_recommendations, true)) /\
  (forall meals : list MealSuggestion.t,
     Forall2 (fun item meal => MealSuggestion.new item = Ok meal) items meals ->
     parse_suggestions json_loads response = Ok (meals, false) /\
     List.length meals = List.length items) /\
  (Exists (fun item => exists e, MealSuggestion.new item = Raise e) items ->
   parse_suggestions json_loads response = Ok (fallback_suggestions, true)).
Proof.
  intros X. unfold parse_recommendations, parse_suggestions. rewrite X.
  cbn [Py.iterate bind].
  split; [|split; [|split]].
  - intros recs F. rewrite (proj2 (mapM_Ok_iff _ _ _) F).
    split; [reflexivity|]. symmetry. exact (Forall2_length F).
  - intros E. destruct (mapM_Exists_raise _ E) as [e R]. rewrite R.
    rewrite (mapM_raises _ _ HealthRecommendation_new_raises R). reflexivity.
  - intros meals F. rewrite (proj2 (mapM_Ok_iff _ _ _) F).
    split; [reflexivity|]. symmetry. exact (Forall2_length F).
  - intros E. destruct (mapM_Exists_raise _ E) as [e R]. rewrite R.
    rewrite (mapM_raises _ _ MealSuggestion_new_raises R). reflexivity.
Qed.

(** X13. An empty list is not replaced: when the payload of the health
    reply decodes to the empty list, the stage returns no recommendation
    and does not fall back, and the relevance check of a record with
    numbers for sodium and fiber then lists the missing recommendations
    first and gives confidence 0.5 and status WARNINGS. *)
Theorem empty_list_not_replaced (response : string) (n : NutritionData)
    (so fb : Q) :
  extract_json json_loads "[" "]" response = Some (VList []) ->
  Py.number (sodium n) = Ok so ->
  Py.number (fiber n) = Ok fb ->
  parse_recommendations json_loads response = Ok ([], false) /\
  exists issues : list string,
    _verify_recommendations [] n =
      Ok {| Check.confidence := 0.5%Q; Check.status := "WARNINGS";
            Check.issues := no_recommendations :: issues |} /\
    (In sodium_unaddressed issues <-> (800 < so)%Q) /\
    (In fiber_unaddressed issues <-> (fb < 5)%Q).
Proof.
  intros X Es Ef. split.
  - unfold parse_recommendations. rewrite X. reflexivity.
  - unfold _verify_recommendations, gt, lt. rewrite Es, Ef.
    cbn [bind any_mentions Py.is_empty append_if app negb].
    rewrite !andb_true_r.
    exists (append_if (Py.Qltb fb 5) fiber_unaddressed
              (append_if (Py.Qltb 800 so) sodium_unaddressed [])).
    split.
    + destruct (Py.Qltb 800 so), (Py.Qltb fb 5); reflexivity.
    + rewrite !in_append_if, <- !Qltb_lt. cbn [In]. split.
      * split; [|tauto]. intros [[[]|[H _]]|[_ D]]; [exact H|discriminate D].
      * split; [|tauto]. intros [[[]|[_ D]]|[H _]]; [discriminate D|exact H].
Qed.

End Lists.

Lemma list_reply_all_or_nothing_witness :
  (parse_recommendations Json.loads Scenario.two_advices_text
   = Ok ([Scenario.advice "sodium" "Use less salt.";
          Scenario.advice "fiber" "Add whole grains."], false) /\
   List.length [Scenario.advice "sodium" "Use less salt.";
                Scenario.advice "fiber" "Add whole grains."]
   = List.length [Scenario.advice_value "sodium" "Use less salt.";
                  Scenario.advice_value "fiber" "Add whole grains."]) /\
  parse_suggestions Json.loads Scenario.two_advices_text
  = Ok (fallback_suggestions, true) /\
  parse_recommendations Json.loads Scenario.one_bad_advice_text
  = Ok (fallback_recommendations, true).
Proof.
  split; [|split].
  - destruct (@list_reply_all_or_nothing Json.loads Scenario.two_advices_text
                [Scenario.advice_value "sodium" "Use less salt.";
                 Scenario.advice_value "fiber" "Add whole grains."])
      as (H & _); [vm_compute; reflexivity|].
    apply H. repeat constructor.
  - destruct (@list_reply_all_or_nothing Json.loads Scenario.two_advices_text
                [Scenario.advice_value "sodium" "Use less salt.";
                 Scenario.advice_value "fiber" "Add whole grains."])
      as (_ & _ & _ & H); [vm_compute; reflexivity|].
    apply H. constructor. exists TypeError. reflexivity.
  - destruct (@list_reply_all_or_nothing Json.loads Scenario.one_bad_advice_text
                [Scenario.advice_value "sodium" "Use less salt.";
                 VDict [("message", VStr "Add whole grains.")]])
      as (_ & H & _); [vm_compute; reflexivity|].
    apply H. apply Exists_cons_tl. constructor. exists TypeError. reflexivity.
Defined.

Lemma empty_list_not_replaced_witness :
  parse_recommendations Json.loads "None needed: [ ]" = Ok ([], false) /\
  exists issues : list string,
    _verify_recommendations [] Scenario.salty =
      Ok {| Check.confidence := 0.5%Q; Check.status := "WARNINGS";
            Check.issues := no_recommendations :: issues |} /\
    (In sodium_unaddressed issues <-> (800 < 1500)%Q) /\
    (In fiber_unaddressed issues <-> (3 < 5)%Q).
Proof.
  apply (@empty_list_not_replaced Json.loads "None needed: [ ]" Scenario.salty
           1500 3); reflexivity.
Defined.

(** ** From the plan to the food items *)

Lemma subscript_raises (v : value) (key : string) (e : exn) :
  Py.subscript v key = Raise e ->
  (e = TypeError /\ forall members, v <> VDict members) \/
  (e = KeyError key /\
   exists members, v = VDict members /\ Py.lookup key members = None).
Proof.
  destruct v as [| | | | |members]; cbn [Py.subscript];
    try (intros E; injection E as <-; left; split; [reflexivity|discriminate]).
  destruct (Py.lookup key members) eqn:L; [discriminate|].
  intros E. injection E as <-. right. eauto.
Qed.

Section Mapping.

Variable py_str : value -> string.

Lemma FoodItem_of_Ok_inv (item : value) (f : FoodItem.t) :
  FoodItem_of py_str item = Ok f -> item_mapped py_str item f.
Proof.
  unfold FoodItem_of, item_mapped.
  destruct (Py.subscript item "name"); cbn [bind]; [|discriminate].
  destruct (Py.subscript item "category"); cbn [bind]; [|discriminate].
  destruct (Py.subscript item "estimated_weight"); cbn [bind]; [|discriminate].
  destruct (Py.subscript item "confidence"); cbn [bind]; [|discriminate].
  destruct (Py.subscript item "preparation"); cbn [bind]; [|discriminate].
  intros E. injection E as <-. cbn. repeat split.
Qed.

Lemma FoodItem_of_raises (item : value) (e : exn) :
  FoodItem_of py_str item = Raise e ->
  exists key, In key item_keys /\ Py.subscript item key = Raise e.
Proof.
  unfold FoodItem_of, item_keys.
  destruct (Py.subscript item "name") eqn:E1; cbn [bind];
    [|intros H; injection H as <-; exists "name";
      split; [cbn [In]; auto 6|exact E1]].
  destruct (Py.subscript item "category") eqn:E2; cbn [bind];
    [|intros H; injection H as <-; exists "category";
      split; [cbn [In]; auto 6|exact E2]].
  destruct (Py.subscript item "estimated_weight") eqn:E3; cbn [bind];
    [|intros H; injection H as <-; exists "estimated_weight";
      split; [cbn [In]; auto 6|exact E3]].
  destruct (Py.subscript item "confidence") eqn:E4; cbn [bind];
    [|intros H; injection H as <-; exists "confidence";
      split; [cbn [In]; auto 6|exact E4]].
  destruct (Py.subscript item "preparation") eqn:E5; cbn [bind];
    [|intros H; injection H as <-; exists "preparation";
      split; [cbn [In]; auto 6|exact E5]].
  discriminate.
Qed.

Lemma items_mapped (items : list value) (fs : list FoodItem.t) :
  mapM (FoodItem_of py_str) items = Ok fs ->
  Forall2 (item_mapped py_str) items fs.
Proof.
  intros E. apply mapM_Ok_iff in E.
  induction E as [|item f items fs H _ IH]; constructor; [|exact IH].
  exact (FoodItem_of_Ok_inv _ H).
Qed.

(** X14. The food items the orchestrator builds from the items of a plan:
    when the mapping returns, there is one food item per item of the plan,
    in the same order, each holding what the item holds under its five
    keys, with the rendering of the weight followed by g as its portion
    size; when it raises, the exception is the [KeyError] of one of the five
    keys, missing in an item, or a [TypeError] for an item that is not a
    dictionary. *)
Theorem food_items_mapped (items : list value) :
  (forall fs : list FoodItem.t,
     mapM (FoodItem_of py_str) items = Ok fs ->
     List.length fs = List.length items /\
     Forall2 (item_mapped py_str) items fs) /\
  (forall e : exn,
     mapM (FoodItem_of py_str) items = Raise e ->
     exists item, In item items /\
       ((e = TypeError /\ forall members, item <> VDict members) \/
        (exists key members,
           In key item_keys /\ e = KeyError key /\
           item = VDict members /\ Py.lookup key members = None))).
Proof.
  split.
  - intros fs E. pose proof (items_mapped _ E) as F. split; [|exact F].
    symmetry. exact (Forall2_length F).
  - intros e. induction items as [|item items IH]; cbn [mapM]; [discriminate|].
    destruct (FoodItem_of py_str item) as [f|e'] eqn:E; cbn [bind].
    + destruct (mapM (FoodItem_of py_str) items) as [fs|e'']; cbn [bind];
        [discriminate|].
      intros H. injection H as <-. destruct (IH eq_refl) as (i & I & C).
      exists i. split; [right; exact I|exact C].
    + intros H. injection H as <-. exists item. split; [left; reflexivity|].
      destruct (FoodItem_of_raises _ E) as (key & K & S).
      destruct (subscript_raises _ _ S) as [T|(-> & members & -> & L)];
        [left; exact T|].
      right. exists key, members. auto.
Qed.

End Mapping.

Section Plan.

Variable json_loads : string -> option value.
Variable call_llm : agent -> result string.
Variable py_str : value -> string.
Variable format_summary : string -> string -> Q -> list string -> string.
Variable clock : nat -> string.
Variable format_2f : Q -> string.
Variable str_exn : exn -> string.

(** X15. When the decoded plan does not yield the food items (it has no
    [food_items], these are not iterable, or an item lacks a key), the run
    raises that exception right after the planning stage: the log holds the
    planning entry and the error entry, and no other stage is started,
    whatever the client would answer.  For a plan that is a dictionary
    without the key the exception is [KeyError] of [food_items]. *)
Theorem unusable_plan_stops_run (image_base64 response : string)
    (user_profile : option (list (string * value))) (st : orchestrator)
    (plan : value) (e : exn) :
  call_llm PlanningAgent = Ok response ->
  extract_json json_loads "{" "}" response = Some plan ->
  (items <- Py.subscript plan "food_items" ;;
   items <- Py.iterate items ;;
   mapM (FoodItem_of py_str) items)%py = Raise e ->
  exists st' : orchestrator,
    analyze_food_image json_loads call_llm py_str format_summary clock format_2f
      str_exn image_base64 user_profile st = (Raise e, st') /\
    coordination_log st' =
      stamped clock (S (clock_reads st))
        (firstn 1 stage_messages
           ++ [("Error in workflow: " ++ str_exn e)%string])%list /\
    (forall members,
       plan = VDict members -> Py.lookup "food_items" members = None ->
       e = KeyError "food_items").
Proof.
  intros C X R. rewrite analyze_food_image_run.
  assert (W : workflow json_loads call_llm py_str format_summary clock format_2f
                image_base64 user_profile (clock_reads st) (started st)
              = (Raise e,
                 logged clock
                   "Planning Agent: Analyzing image and creating analysis strategy"
                   (started st))).
  { unfold workflow, bindM, lift. rewrite _log_run.
    unfold analyze_image_and_plan, parse_plan. rewrite C. cbn [bind].
    rewrite X. cbn [fst]. rewrite R. reflexivity. }
  rewrite W. eexists. split; [reflexivity|]. split; [reflexivity|].
  intros members -> L. cbn [Py.subscript] in R. rewrite L in R.
  cbn [bind] in R. congruence.
Qed.

End Plan.

Lemma unusable_plan_stops_run_witness :
  exists st' : orchestrator,
    analyze_food_image Json.loads Scenario.empty_plan Scenario.render
      Scenario.summary Scenario.noon Scenario.two_places Scenario.describe
      "aW1hZ2U=" None Scenario.idle = (Raise (KeyError "food_items"), st') /\
    coordination_log st' =
      stamped Scenario.noon 1
        (firstn 1 stage_messages
           ++ [("Error in workflow: "
                  ++ Scenario.describe (KeyError "food_items"))%string])%list /\
    (forall members,
       VDict [] = VDict members -> Py.lookup "food_items" members = None ->
       KeyError "food_items" = KeyError "food_items").
Proof.
  apply (@unusable_plan_stops_run Json.loads Scenario.empty_plan Scenario.render
           Scenario.summary Scenario.noon Scenario.two_places Scenario.describe
           "aW1hZ2U=" "Here you go: {}" None Scenario.idle (VDict [])
           (KeyError "food_items")); reflexivity.
Defined.

(** ** A food name that is not a text *)

Lemma join_names_raises (names : list value) :
  Exists not_text names -> join_names names = Raise TypeError.
Proof.
  intros X. unfold join_names.
  set (f := fun v : value =>
              match v with VStr s => Ok s | _ => Raise TypeError end).
  assert (R : exists e, mapM f names = Raise e).
  { apply mapM_Exists_raise. induction X as [v vs N|v vs _ IH].
    - left. destruct v; try (exists TypeError; reflexivity).
      exfalso. exact (N _ eq_refl).
    - right. exact IH. }
  destruct R as [e R]. rewrite R. cbn [bind]. f_equal.
  apply (mapM_raises f names); [|exact R].
  intros x e' E. subst f. destruct x; cbn in E; congruence.
Qed.

Section Names.

Variable json_loads : string -> option value.
Variable call_llm : agent -> result string.
Variable py_str : value -> string.
Variable format_summary : string -> string -> Q -> list string -> string.
Variable clock : nat -> string.
Variable format_2f : Q -> string.
Variable str_exn : exn -> string.

Lemma names_of_mapped (items : list value) (fs : list FoodItem.t) :
  Forall2 (item_mapped py_str) items fs ->
  mapM (fun item => Py.subscript item "name") items = Ok (map FoodItem.name fs).
Proof.
  induction 1 as [|item f items fs (N & _) _ IH]; cbn [mapM map].
  - reflexivity.
  - rewrite N, IH. reflexivity.
Qed.

Lemma descriptions_of_mapped (items : list value) (fs : list FoodItem.t) :
  Forall2 (item_mapped py_str) items fs ->
  exists lines,
    mapM (fun item =>
            n <- Py.subscript item "name" ;;
            w <- Py.subscript item "estimated_weight" ;;
            p <- Py.subscript item "preparation" ;;
            Ok ("- " ++ py_str n ++ ": " ++ py_str w ++ "g, " ++ py_str p))%py
         items = Ok lines.
Proof.
  induction 1 as [|item f items fs (N & _ & W & _ & P & _) _ [lines IH]];
    cbn [mapM].
  - eauto.
  - rewrite N, W, P. cbn [bind]. rewrite IH. cbn [bind]. eauto.
Qed.

(** X16. A food name that is not a text passes the planning, nutrition and
    health stages and makes the meal planning stage raise [TypeError]
    before it calls its client: the run raises after two more calls of the
    client were answered, with four stage entries and the error entry in
    the log. *)
Theorem name_not_text_stops_meal_planning (image_base64 r0 r1 r2 : string)
    (user_profile : option (list (string * value))) (st : orchestrator)
    (plan food_items : value) (items : list value) (fs : list FoodItem.t) :
  call_llm PlanningAgent = Ok r0 ->
  extract_json json_loads "{" "}" r0 = Some plan ->
  Py.subscript plan "food_items" = Ok food_items ->
  Py.iterate food_items = Ok items ->
  mapM (FoodItem_of py_str) items = Ok fs ->
  Exists (fun f => not_text (FoodItem.name f)) fs ->
  call_llm NutritionAgent = Ok r1 ->
  call_llm HealthAgent = Ok r2 ->
  exists st' : orchestrator,
    analyze_food_image json_loads call_llm py_str format_summary clock format_2f
      str_exn image_base64 user_profile st = (Raise TypeError, st') /\
    coordination_log st' =
      stamped clock (S (clock_reads st))
        (firstn 4 stage_messages
           ++ [("Error in workflow: " ++ str_exn TypeError)%string])%list.
Proof.
  intros C0 X S I M N C1 C2. rewrite analyze_food_image_run.
  pose proof (items_mapped py_str _ M) as F.
  destruct (descriptions_of_mapped F) as [lines D].
  destruct (parse_nutrition_returns json_loads r1) as [[n b1] P1].
  destruct (parse_recommendations_returns json_loads r2) as [[recs b2] P2].
  assert (W : workflow json_loads call_llm py_str format_summary clock format_2f
                image_base64 user_profile (clock_reads st) (started st)
              = (Raise TypeError,
                 logged clock "Meal Planning Agent: Suggesting complementary foods"
                   (logged clock
                      "Health Agent: Generating personalized health recommendations"
                      (logged clock
                         "Nutrition Agent: Calculating comprehensive nutrition data"
                         (logged clock
                            "Planning Agent: Analyzing image and creating analysis strategy"
                            (started st)))))).
  { unfold workflow, bindM, lift. rewrite _log_run.
    unfold analyze_image_and_plan, parse_plan. rewrite C0. cbn [bind].
    rewrite X. cbn [fst]. rewrite S. cbn [bind]. rewrite I. cbn [bind].
    rewrite M. rewrite _log_run.
    unfold analyze_nutrition, food_descriptions. rewrite I. cbn [bind].
    rewrite D. cbn [bind]. rewrite C1. cbn [bind]. rewrite P1. cbn [bind fst].
    rewrite _log_run.
    unfold generate_recommendations. rewrite C2. cbn [bind]. rewrite P2.
    cbn [bind fst]. rewrite _log_run.
    unfold suggest_complementary_foods. rewrite I. cbn [bind].
    rewrite (names_of_mapped F). cbn [bind].
    rewrite join_names_raises; [reflexivity|].
    clear - N. induction N as [f fs N|f fs _ IH]; [left; exact N|right; exact IH]. }
  rewrite W. eexists. split; reflexivity.
Qed.

End Names.

Lemma name_not_text_stops_meal_planning_witness :
  exists st' : orchestrator,
    analyze_food_image Json.loads Scenario.numbered_name Scenario.render
      Scenario.summary Scenario.noon Scenario.two_places Scenario.describe
      "aW1hZ2U=" None Scenario.idle = (Raise TypeError, st') /\
    coordination_log st' =
      stamped Scenario.noon 1
        (firstn 4 stage_messages
           ++ [("Error in workflow: " ++ Scenario.describe TypeError)%string])%list.
Proof.
  apply (@name_not_text_stops_meal_planning Json.loads Scenario.numbered_name
           Scenario.render Scenario.summary Scenario.noon Scenario.two_places
           Scenario.describe "aW1hZ2U=" Scenario.numbered_plan_text
           "I am sorry, I cannot help with that."
           "I am sorry, I cannot help with that." None Scenario.idle
           (VDict [("food_items", VList [Scenario.numbered_item])])
           (VList [Scenario.numbered_item]) [Scenario.numbered_item]
           [Scenario.numbered_food]).
  - reflexivity.
  - vm_compute. reflexivity.
  - reflexivity.
  - reflexivity.
  - reflexivity.
  - left. intros s D. discriminate D.
  - reflexivity.
  - reflexivity.
Defined.

(** ** A run on fallback values only *)





Section Degraded.

Variable json_loads : string -> option value.
Variable call_llm : agent -> result string.
Variable py_str : value -> string.
Variable format_summary : string -> string -> Q -> list string -> string.
Variable clock : nat -> string.
Variable format_2f : Q -> string.
Variable str_exn : exn -> string.


End Degraded.


(** ** Suggestions for improvement *)

(** X18. The advice the verification attaches: clearer images are asked
    for exactly when the confidence score is below 0.8, more recommendations
    exactly when there are fewer than three, meal planning suggestions
    exactly when there are none; the advice is empty only for a result with
    a score of at least 0.8, three recommendations or more and some meal
    suggestion, and it never holds more than three entries. *)
Theorem suggestions_iff (r : AnalysisResult) :
  (In "Consider requesting clearer food images for better identification"
      (_suggest_improvements r) <-> (confidence_score r < 0.8)%Q) /\
  (In "Generate more comprehensive health recommendations"
      (_suggest_improvements r) <->
   (List.length (health_recommendations r) < 3)%nat) /\
  (In "Include meal planning suggestions for complete nutrition"
      (_suggest_improvements r) <-> meal_suggestions r = []) /\
  (_suggest_improvements r = [] <->
   (0.8 <= confidence_score r)%Q /\
   (3 <= List.length (health_recommendations r))%nat /\
   meal_suggestions r <> []) /\
  (List.length (_suggest_improvements r) <= 3)%nat.
Proof.
  unfold _suggest_improvements.
  assert (A : Py.Qltb (confidence_score r) 0.8 = true <->
              (confidence_score r < 0.8)%Q) by apply Qltb_lt.
  assert (A' : Py.Qltb (confidence_score r) 0.8 = false <->
               (0.8 <= confidence_score r)%Q).
  { split.
    - intros E. apply Qnot_lt_le. intros L. apply A in L. congruence.
    - intros L. destruct (Py.Qltb _ _) eqn:E; [|reflexivity].
      apply Qltb_lt in E. exfalso. exact (Qlt_not_le _ _ E L). }
  assert (B : (List.length (health_recommendations r) <? 3)%nat = true <->
              (List.length (health_recommendations r) < 3)%nat)
    by apply Nat.ltb_lt.
  assert (B' : (List.length (health_recommendations r) <? 3)%nat = false <->
               (3 <= List.length (health_recommendations r))%nat)
    by apply Nat.ltb_ge.
  assert (C : Py.is_empty (meal_suggestions r) = true <-> meal_suggestions r = [])
    by apply is_empty_true.
  rewrite <- A, <- B, <- C, <- A', <- B'.
  destruct (Py.Qltb (confidence_score r) 0.8),
           (List.length (health_recommendations r) <? 3)%nat,
           (Py.is_empty (meal_suggestions r));
    cbn [append_if app In List.length];
    repeat split; try tauto; try lia; try discriminate;
    try (intros [D|D]; try discriminate D; try tauto);
    try (intros (D1 & D2 & D3); discriminate);
    intuition discriminate.
Qed.

(** ** Running the analysis again *)

Section Again.

Variable json_loads : string -> option value.
Variable call_llm : agent -> result string.
Variable py_str : value -> string.
Variable format_summary : string -> string -> Q -> list string -> string.
Variable format_2f : Q -> string.
Variable str_exn : exn -> string.

Lemma verify_analysis_frame (r1 r2 : AnalysisResult) :
  nutrition r1 = nutrition r2 ->
  health_recommendations r1 = health_recommendations r2 ->
  meal_suggestions r1 = meal_suggestions r2 ->
  confidence_score r1 = confidence_score r2 ->
  verify_analysis py_str format_summary r1 = verify_analysis py_str format_summary r2.
Proof.
  intros N H M C. unfold verify_analysis, _suggest_improvements.
  rewrite N, H, M, C. reflexivity.
Qed.

Lemma workflow_same_outcome (clock1 clock2 : nat -> string)
    (image_base64 : string) (user_profile : option (list (string * value)))
    (t1 t2 : nat) (st1 st2 : orchestrator) :
  same_outcome
    (fst (workflow json_loads call_llm py_str format_summary clock1 format_2f
            image_base64 user_profile t1 st1))
    (fst (workflow json_loads call_llm py_str format_summary clock2 format_2f
            image_base64 user_profile t2 st2)).
Proof.
  unfold workflow, bindM, lift, ret, get_log. rewrite !_log_run.
  destruct (analyze_image_and_plan _ _ _) as [plan|e]; [|reflexivity].
  destruct (_ <- Py.subscript plan _ ;; _)%py as [items|e]; [|reflexivity].
  rewrite ?_log_run.
  destruct (_ <- Py.subscript plan _ ;; _)%py as [n|e]; [|reflexivity].
  rewrite ?_log_run.
  destruct (_ <- Py.subscript plan _ ;; _)%py as [recs|e]; [|reflexivity].
  rewrite ?_log_run.
  destruct (_ <- Py.subscript plan _ ;; _)%py as [meals|e]; [|reflexivity].
  destruct (aggregate_confidence _) as [overall|e]; [|reflexivity].
  rewrite ?_log_run.
  match goal with
  | |- same_outcome (fst match verify_analysis _ _ ?a with _ => _ end)
                    (fst match verify_analysis _ _ ?b with _ => _ end) =>
      rewrite (verify_analysis_frame a b) by reflexivity
  end.
  destruct (verify_analysis _ _ _) as [v|e]; [|reflexivity].
  rewrite ?_log_run. reflexivity.
Qed.

(** X20. Running the analysis again gives the same outcome up to
    timestamps and log: for the same answers of the client, two runs from
    any two states of the orchestrator, under any two clocks, either both
    return results with the same food items, nutrition, recommendations,
    suggestions and confidence score, or both raise the same exception.
    Nothing of an earlier run leaks into a later one. *)
Theorem analysis_repeatable (clock1 clock2 : nat -> string)
    (image_base64 : string) (user_profile : option (list (string * value)))
    (st1 st2 : orchestrator) :
  same_outcome
    (fst (analyze_food_image json_loads call_llm py_str format_summary clock1
            format_2f str_exn image_base64 user_profile st1))
    (fst (analyze_food_image json_loads call_llm py_str format_summary clock2
            format_2f str_exn image_base64 user_profile st2)).
Proof.
  rewrite !analyze_food_image_run.
  pose proof (workflow_same_outcome clock1 clock2 image_base64 user_profile
                (clock_reads st1) (clock_reads st2) (started st1) (started st2))
    as W.
  destruct (workflow _ _ _ _ clock1 _ _ _ _ _) as [[r1|e1] s1];
    destruct (workflow _ _ _ _ clock2 _ _ _ _ _) as [[r2|e2] s2];
    exact W.
Qed.

End Again.

(** * The arithmetic in binary64 *)

(** ** The operations *)

Lemma of_int_small (z : Z) :
  (0 <= z < 2 ^ 63)%Z ->
  Binary64.of_int z = Ok (of_uint63 (Uint63.of_Z z)).
Proof.
  intros [L U]. unfold Binary64.of_int.
  rewrite (Z.abs_eq z L).
  destruct (Z.ltb_spec z (2 ^ 63)) as [_|N]; [|lia].
  destruct (Z.ltb_spec z 0) as [N|_]; [lia|]. reflexivity.
Qed.

(** What an operation raises, and on what. *)
Lemma arith_raises (on_int : Z -> Z -> Z) (on_float : float -> float -> float)
    (a b : Binary64.value) (e : exn) :
  Binary64.arith on_int on_float a b = Raise e ->
  (e = TypeError /\ (a = Binary64.Other \/ b = Binary64.Other)) \/
  (e = OverflowError /\
   ((exists z x, a = Binary64.Int z /\ b = Binary64.Float x) \/
    (exists x z, a = Binary64.Float x /\ b = Binary64.Int z))).
Proof.
  unfold Binary64.arith.
  destruct a as [z|x|[]|], b as [z'|x'|[]|]; cbn;
    try discriminate; try (intros H; injection H as <-; auto).
  - destruct (Binary64.of_int z) as [y|e'] eqn:E; cbn; [discriminate|].
    intros H; injection H as <-. right.
    unfold Binary64.of_int in E.
    destruct (Z.abs z <? 2 ^ 63)%Z; [discriminate|].
    destruct (SpecFloat.binary_normalize _ _ _ _ _); try discriminate.
    injection E as <-. split; [reflexivity|]. left. eauto.
  - destruct (Binary64.of_int z') as [y|e'] eqn:E; cbn; [discriminate|].
    intros H; injection H as <-. right.
    unfold Binary64.of_int in E.
    destruct (Z.abs z' <? 2 ^ 63)%Z; [discriminate|].
    destruct (SpecFloat.binary_normalize _ _ _ _ _); try discriminate.
    injection E as <-. split; [reflexivity|]. right. eauto.
Qed.

Lemma arith_number (on_int : Z -> Z -> Z) (on_float : float -> float -> float)
    (a b v : Binary64.value) :
  Binary64.arith on_int on_float a b = Ok v ->
  Binary64.is_number a = true /\ Binary64.is_number b = true /\
  Binary64.is_number v = true.
Proof.
  unfold Binary64.arith.
  destruct (Binary64.is_number a), (Binary64.is_number b); cbn; try discriminate.
  destruct (Binary64.as_int a), (Binary64.as_int b);
    try (intros H; injection H as <-; auto);
    destruct (Binary64.as_float a); cbn; try discriminate;
    destruct (Binary64.as_float b); cbn; try discriminate;
    intros H; injection H as <-; auto.
Qed.







(** ** The calorie check *)

Section Distance.

Variable py_str : Binary64.value -> string.



End Distance.

Section Calories.

Variable py_str : Binary64.value -> string.


End Calories.



(** ** Sums and means *)

Lemma add_from_zero (x : float) :
  Binary64.add (Binary64.Int 0) (Binary64.Float x) = Ok (Binary64.Float (0 + x)).
Proof. reflexivity. Qed.

Lemma add_floats (x y : float) :
  Binary64.add (Binary64.Float x) (Binary64.Float y) = Ok (Binary64.Float (x + y)).
Proof. reflexivity. Qed.


Lemma sum_floats_from (acc : float) (xs : list float) :
  fold_left (fun acc x => (a <- acc ;; Binary64.add a x)%py)
    (map Binary64.Float xs) (Ok (Binary64.Float acc))
  = Ok (Binary64.Float (fold_left PrimFloat.add xs acc)).
Proof.
  revert acc. induction xs as [|x xs IH]; intros acc; [reflexivity|].
  cbn [map fold_left bind]. rewrite add_floats. apply IH.
Qed.

Lemma sum_floats (x : float) (xs : list float) :
  Binary64.sum (map Binary64.Float (x :: xs))
  = Ok (Binary64.Float (fold_left PrimFloat.add (x :: xs) 0%float)).
Proof.
  unfold Binary64.sum. cbn [map fold_left bind]. rewrite add_from_zero.
  apply sum_floats_from.
Qed.



Lemma truediv_float_count (x : float) (n : Z) :
  (0 < n < 2 ^ 63)%Z ->
  Binary64.truediv (Binary64.Float x) (Binary64.Int n)
  = Ok (Binary64.Float (x / of_uint63 (Uint63.of_Z n))).
Proof.
  intros [L U]. unfold Binary64.truediv.
  cbn [Binary64.is_number Binary64.as_int Binary64.as_float andb bind].
  destruct (Z.eqb_spec n 0) as [E|_]; [lia|].
  rewrite of_int_small by lia. reflexivity.
Qed.






Section Mean.

Variable py_str : Binary64.value -> string.
Variable format_summary : string -> string -> Binary64.value -> list string -> string.




End Mean.



(** ** What the nutrition check raises *)





Section Exceptions.

Variable py_str : Binary64.value -> string.




End Exceptions.

(** ** What the aggregate confidence raises *)

Lemma sum_raised (e : exn) (xs : list Binary64.value) :
  fold_left (fun acc x => (a <- acc ;; Binary64.add a x)%py) xs (Raise e) = Raise e.
Proof. induction xs as [|x xs IH]; [reflexivity|exact IH]. Qed.

Lemma sum_from_cases (xs : list Binary64.value) (acc : Binary64.value) :
  Binary64.is_number acc = true ->
  match fold_left (fun acc x => (a <- acc ;; Binary64.add a x)%py) xs (Ok acc) with
  | Ok v =>
      Binary64.is_number v = true /\
      Forall (fun x => Binary64.is_number x = true) xs
  | Raise e =>
      (e = TypeError /\ Exists (fun x => x = Binary64.Other) xs) \/
      e = OverflowError
  end.
Proof.
  revert acc. induction xs as [|x xs IH]; intros acc N; cbn [fold_left bind].
  - auto.
  - destruct (Binary64.add acc x) as [a|e] eqn:A.
    + apply arith_number in A. destruct A as (_ & Nx & Na).
      specialize (IH a Na). destruct (fold_left _ xs (Ok a)) as [v|e].
      * destruct IH as [Nv F]. auto.
      * destruct IH as [[-> E]|IH]; auto.
    + rewrite sum_raised. apply arith_raises in A.
      destruct A as [[-> [->| ->]]|[-> _]]; [discriminate N|auto..].
Qed.

Lemma sum_other (xs : list Binary64.value) (acc : result Binary64.value) :
  Exists (fun x => x = Binary64.Other) xs ->
  exists e : exn,
    fold_left (fun acc x => (a <- acc ;; Binary64.add a x)%py) xs acc = Raise e.
Proof.
  intros E. revert acc. induction E as [x xs ->|x xs _ IH]; intros acc.
  - cbn [fold_left]. destruct acc as [a|e]; cbn [bind].
    + replace (Binary64.add a Binary64.Other) with (@Raise Binary64.value TypeError)
        by (destruct a as [?|?|[]|]; reflexivity).
      rewrite sum_raised. eauto.
    + rewrite sum_raised. eauto.
  - cbn [fold_left]. apply IH.
Qed.

Lemma truediv_count (a : Binary64.value) (n : Z) :
  Binary64.is_number a = true ->
  (0 < n)%Z ->
  (exists x : float, Binary64.truediv a (Binary64.Int n) = Ok (Binary64.Float x)) \/
  Binary64.truediv a (Binary64.Int n) = Raise OverflowError.
Proof.
  intros N P. unfold Binary64.truediv. rewrite N.
  cbn [Binary64.is_number Binary64.as_int andb].
  destruct (Z.eqb_spec n 0) as [E|_]; [lia|].
  assert (I : forall x : Z,
            (exists q, Binary64.int_truediv x n = Ok q) \/
            Binary64.int_truediv x n = Raise OverflowError).
  { intros x. unfold Binary64.int_truediv. destruct x; eauto;
      destruct (SpecFloat.SFdiv_core_binary _ _ _ _ _ _) as [[q e] l];
      destruct (SpecFloat.binary_round_aux _ _ _ _ _ _); eauto. }
  assert (O : forall x : float,
            (exists k, Binary64.of_int n = Ok k) \/
            Binary64.of_int n = Raise OverflowError).
  { intros _. unfold Binary64.of_int. destruct (Z.abs n <? 2 ^ 63)%Z; eauto.
    destruct (SpecFloat.binary_normalize _ _ _ _ _); eauto. }
  destruct a as [z|x|b|]; cbn [Binary64.as_int Binary64.as_float bind];
    [| |destruct b|discriminate N].
  - destruct (I z) as [[q ->]| ->]; cbn [bind]; eauto.
  - destruct (O x) as [[k ->]| ->]; cbn [bind]; eauto.
  - destruct (I 1%Z) as [[q ->]| ->]; cbn [bind]; eauto.
  - destruct (I 0%Z) as [[q ->]| ->]; cbn [bind]; eauto.
Qed.

(** A list of floats of a length a machine word holds. *)
Lemma aggregate_floats (x : float) (xs : list float) :
  (Z.of_nat (List.length (x :: xs)) < 2 ^ 63)%Z ->
  Binary64.aggregate_confidence (map Binary64.Float (x :: xs))
  = Ok (Binary64.Float
          (fold_left PrimFloat.add (x :: xs) 0%float
           / of_uint63 (Uint63.of_Z (Z.of_nat (List.length (x :: xs)))))).
Proof.
  intros B. unfold Binary64.aggregate_confidence.
  cbn [map Py.is_empty]. change (Binary64.Float x :: map Binary64.Float xs)
    with (map Binary64.Float (x :: xs)).
  rewrite sum_floats. cbn [bind]. unfold Binary64.len. rewrite length_map.
  apply truediv_float_count. split; [|exact B]. cbn [List.length]. lia.
Qed.

(** X8. What the aggregate confidence raises: [TypeError], and then a
    confidence is not a number, or [OverflowError], and never
    [ZeroDivisionError]; a confidence that is not a number always makes it
    raise; what it returns is a float; and on floats it always returns. *)
Theorem aggregate_confidence_exceptions (scores : list Binary64.value) :
  (forall e : exn,
     Binary64.aggregate_confidence scores = Raise e ->
     (e = TypeError /\ Exists (fun v => v = Binary64.Other) scores) \/
     e = OverflowError) /\
  (Exists (fun v => v = Binary64.Other) scores ->
   exists e : exn, Binary64.aggregate_confidence scores = Raise e) /\
  (forall v : Binary64.value,
     Binary64.aggregate_confidence scores = Ok v ->
     (exists x : float, v = Binary64.Float x) /\
     Forall (fun v => Binary64.is_number v = true) scores) /\
  (forall xs : list float,
     scores = map Binary64.Float xs ->
     (Z.of_nat (List.length xs) < 2 ^ 63)%Z ->
     exists x : float, Binary64.aggregate_confidence scores = Ok (Binary64.Float x)).
Proof.
  assert (C : scores <> [] ->
              match Binary64.aggregate_confidence scores with
              | Ok v =>
                  (exists x : float, v = Binary64.Float x) /\
                  Forall (fun v => Binary64.is_number v = true) scores
              | Raise e =>
                  (e = TypeError /\ Exists (fun v => v = Binary64.Other) scores) \/
                  e = OverflowError
              end).
  { intros N. unfold Binary64.aggregate_confidence.
    destruct scores as [|s scores]; [contradiction|]. cbn [Py.is_empty].
    pose proof (sum_from_cases (s :: scores) (Binary64.Int 0) eq_refl) as S.
    unfold Binary64.sum.
    destruct (fold_left _ (s :: scores) (Ok (Binary64.Int 0))) as [total|e];
      cbn [bind]; [|exact S].
    destruct S as [Nt F]. unfold Binary64.len.
    destruct (@truediv_count total (Z.of_nat (List.length (s :: scores))) Nt)
      as [[x ->]| ->]; [cbn [List.length]; lia|eauto|auto]. }
  split; [|split; [|split]].
  - intros e H. destruct scores as [|s scores]; [discriminate H|].
    assert (N : s :: scores <> []) by discriminate. specialize (C N). rewrite H in C. exact C.
  - intros E. unfold Binary64.aggregate_confidence.
    destruct scores as [|s scores]; [inversion E|]. cbn [Py.is_empty].
    destruct (sum_other (Ok (Binary64.Int 0)) E) as [e S].
    unfold Binary64.sum. rewrite S. cbn [bind]. eauto.
  - intros v H. destruct scores as [|s scores].
    + injection H as <-. split; [eauto|constructor].
    + assert (N : s :: scores <> []) by discriminate. specialize (C N). rewrite H in C. exact C.
  - intros xs -> B. destruct xs as [|x xs]; [eexists; reflexivity|].
    rewrite (aggregate_floats B). eauto.
Qed.

(** ** Sodium above both thresholds *)




Section Sodium64.

Variable py_str : Binary64.value -> string.
Variable format_summary : string -> string -> Binary64.value -> list string -> string.


End Sodium64.

